(** * ml-agents trainer base layer: metrics recorder and trainer base class

    Shallow embedding of [ml-agents/mlagents/trainers/trainer.py]:
    the classes [UnityTrainerException], [TrainerMetrics] and [Trainer].

    Python objects are records, attribute assignment is a record update
    inside a state-and-exception monad, and everything the file reaches
    outside itself (the wall clock, the logger, the file system, the
    summary writer, numpy, the TensorFlow session) is either a component
    of an explicit [World] or a member of the [PythonRuntime] interface. *)

From Stdlib Require Import ZArith String Ascii List Lia SpecFloat DecimalString.
From stdpp Require Import base gmap strings list.

Local Open Scope string_scope.
Local Open Scope list_scope.
Local Open Scope Z_scope.

(** ** Python values *)

(** Python floats are IEEE binary64 numbers. *)
Definition float : Type := spec_float.
Definition float_sub : float → float → float := SFsub 53 1024.
Definition float_of_Z (z : Z) : float := binary_normalize 53 1024 z 0 false.

Inductive Exception : Type :=
| TypeError (msg : string)
| KeyError (key : string)
| ValueError (msg : string)
| OverflowError (msg : string)
| ZeroDivisionError (msg : string)
| OSError (msg : string)
| UnityTrainerException (msg : string)
| OtherException (cls msg : string).

Inductive Result (A : Type) : Type :=
| Ok (a : A)
| Raise (e : Exception).
Arguments Ok {A} a.
Arguments Raise {A} e.

#[global] Instance Result_ret : MRet Result := λ A a, Ok a.
#[global] Instance Result_bind : MBind Result :=
  λ A B f r, match r with Ok a => f a | Raise e => Raise e end.

(** The values that flow through this file: [None], booleans, integers,
    floats, strings, and the class object [float] that
    [end_policy_update] compares against with [is]. *)
Inductive PyVal : Type :=
| VNone
| VBool (b : bool)
| VInt (z : Z)
| VFloat (f : float)
| VStr (s : string)
| VClassFloat.

Definition of_opt_float (o : option float) : PyVal :=
  match o with Some f => VFloat f | None => VNone end.
Definition of_opt_int (o : option Z) : PyVal :=
  match o with Some z => VInt z | None => VNone end.

Definition NL : string := String (ascii_of_nat 10) EmptyString.
Definition CR : string := String (ascii_of_nat 13) EmptyString.
Definition TAB : string := String (ascii_of_nat 9) EmptyString.

Definition str_of_Z (z : Z) : string := NilZero.string_of_int (Z.to_int z).

(** [format(x, '.3f')] on a float: the exact value [m * 2^e], scaled by
    1000 and rounded to the nearest integer (ties to even), printed with
    three digits after the point. *)
Definition round_half_even (num den : Z) : Z :=
  let q := num / den in
  let r := num mod den in
  match Z.compare (2 * r) den with
  | Lt => q
  | Gt => q + 1
  | Eq => if Z.even q then q else q + 1
  end.

Definition pad3 (n : Z) : string :=
  let s := str_of_Z n in
  if n <? 10 then "00" +:+ s else if n <? 100 then "0" +:+ s else s.

Definition fixed3 (neg : bool) (thousandths : Z) : string :=
  (if neg then "-" else "") +:+ str_of_Z (thousandths / 1000)
    +:+ "." +:+ pad3 (thousandths mod 1000).

Definition format_3f (x : float) : string :=
  match x with
  | S754_nan => "nan"
  | S754_infinity s => if s then "-inf" else "inf"
  | S754_zero s => fixed3 s 0
  | S754_finite s m e =>
      if 0 <=? e
      then fixed3 s (Z.pos m * 2 ^ e * 1000)
      else fixed3 s (round_half_even (Z.pos m * 1000) (2 ^ (- e)))
  end.

(** ** What the file takes from outside

    [repr] of a float, the modulo of an integer by a float, and the
    numpy reductions are library code; they are members of an interface
    and every statement below holds for any implementation of it. *)
Class PythonRuntime : Type := {
  float_repr : float → string;
  int_mod_float : Z → float → Result float;
  np_mean : list float → float;
  np_std : list float → float
}.

Section Builtins.
Context {rt : PythonRuntime}.

Definition py_str (v : PyVal) : string :=
  match v with
  | VNone => "None"
  | VBool b => if b then "True" else "False"
  | VInt z => str_of_Z z
  | VFloat f => float_repr f
  | VStr s => s
  | VClassFloat => "<class 'float'>"
  end.

(** [format(v, '.3f')] and the replacement field [{:0.3f}]. *)
Definition py_format_3f (v : PyVal) : Result string :=
  let of_int z :=
    match float_of_Z z with
    | S754_infinity _ => Raise (OverflowError "int too large to convert to float")
    | f => Ok (format_3f f)
    end in
  match v with
  | VFloat f => Ok (format_3f f)
  | VInt z => of_int z
  | VBool b => of_int (if b then 1 else 0)
  | VNone => Raise (TypeError "unsupported format string passed to NoneType.__format__")
  | VStr _ => Raise (ValueError "Unknown format code 'f' for object of type 'str'")
  | VClassFloat => Raise (TypeError "unsupported format string passed to type.__format__")
  end.

(** The builtin [isinstance], applied to its positional arguments. *)
Definition py_isinstance (args : list PyVal) : Result PyVal :=
  match args with
  | [obj; cls] =>
      match cls with
      | VClassFloat => Ok (VBool match obj with VFloat _ => true | _ => false end)
      | _ => Raise (TypeError "isinstance() arg 2 must be a type or tuple of types")
      end
  | _ =>
      Raise (TypeError ("isinstance expected 2 arguments, got "
                          +:+ str_of_Z (Z.of_nat (length args))))
  end.

(** [v is float]: identity with the class object. *)
Definition py_is_float_class (v : PyVal) : bool :=
  match v with VClassFloat => true | _ => false end.

(** [a - b] where [a] is a float. *)
Definition py_float_sub (a : float) (b : PyVal) : Result float :=
  match b with
  | VFloat f => Ok (float_sub a f)
  | VInt z =>
      match float_of_Z z with
      | S754_infinity _ => Raise (OverflowError "int too large to convert to float")
      | f => Ok (float_sub a f)
      end
  | VBool b => Ok (float_sub a (float_of_Z (if b then 1 else 0)))
  | VNone => Raise (TypeError "unsupported operand type(s) for -: 'float' and 'NoneType'")
  | VStr _ => Raise (TypeError "unsupported operand type(s) for -: 'float' and 'str'")
  | VClassFloat => Raise (TypeError "unsupported operand type(s) for -: 'float' and 'type'")
  end.
End Builtins.

(** ** State, exceptions and the outside world *)

Definition M (S A : Type) : Type := S → Result A * S.

#[global] Instance M_ret {S} : MRet (M S) := λ A a s, (Ok a, s).
#[global] Instance M_bind {S} : MBind (M S) :=
  λ A B f m s, match m s with
               | (Ok a, s') => f a s'
               | (Raise e, s') => (Raise e, s')
               end.

Definition raise {S A} (e : Exception) : M S A := λ s, (Raise e, s).
Definition lift_result {S A} (r : Result A) : M S A := λ s, (r, s).

(** [try: body  except: handler] with a bare [except], which catches
    every exception. *)
Definition try_except {S A} (body : M S A) (handler : Exception → M S A) : M S A :=
  λ s, match body s with
       | (Ok a, s') => (Ok a, s')
       | (Raise e, s') => handler e s'
       end.

Inductive LogLevel : Type := DEBUG | INFO.

(** One call of [summary.value.add(tag=..., simple_value=...)]. *)
Definition SummaryValue : Type := string * PyVal.

(** What [add_summary] is handed: a [tf.Summary()] filled by
    [value.add], or the serialized summary a session run returned. *)
Inductive Summary : Type :=
| Scalars (values : list SummaryValue)
| Serialized (data : string).

Record World : Type := mkWorld {
  clock : nat → float;          (* successive results of [time()] *)
  ticks : nat;                  (* how many were consumed *)
  log : list (LogLevel * string);
  fs : gmap string string;      (* path ↦ file content *)
  unwritable : gset string;     (* paths [open(_, 'w')] fails on *)
  next_list : positive;         (* allocator of list objects *)
  lists : gmap positive (list float);
  written : list (Summary * Z); (* [summary_writer.add_summary] calls *)
  flushes : nat
}.

Definition time : M World float :=
  λ w, (Ok (clock w (ticks w)),
        mkWorld (clock w) (S (ticks w)) (log w) (fs w) (unwritable w)
                (next_list w) (lists w) (written w) (flushes w)).

Definition logger (lvl : LogLevel) (msg : string) : M World unit :=
  λ w, (Ok tt,
        mkWorld (clock w) (ticks w) (log w ++ [(lvl, msg)]) (fs w) (unwritable w)
                (next_list w) (lists w) (written w) (flushes w)).

(** Methods run on a pair of the receiver and the world. *)
Definition world {O A} (m : M World A) : M (O * World) A :=
  λ '(o, w), let '(r, w') := m w in (r, (o, w')).
Definition self_get {O A} (f : O → A) : M (O * World) A :=
  λ '(o, w), (Ok (f o), (o, w)).
Definition self_set {O} (f : O → O) : M (O * World) unit :=
  λ '(o, w), (Ok tt, (f o, w)).

Definition open_w (path : string) : M World unit :=
  λ w, if decide (path ∈ unwritable w)
       then (Raise (OSError path), w)
       else (Ok tt,
             mkWorld (clock w) (ticks w) (log w) (<[path := ""]> (fs w))
                     (unwritable w) (next_list w) (lists w) (written w) (flushes w)).

Definition file_write (path data : string) : M World unit :=
  λ w, (Ok tt,
        mkWorld (clock w) (ticks w) (log w)
                (<[path := default "" (fs w !! path) +:+ data]> (fs w))
                (unwritable w) (next_list w) (lists w) (written w) (flushes w)).

(** [for x in xs: body(x)] *)
Fixpoint for_each {S A} (xs : list A) (body : A → M S unit) : M S unit :=
  match xs with
  | [] => mret tt
  | x :: xs' => body x ;; for_each xs' body
  end.

(** ** The [csv] writer (default dialect: comma, double quote, minimal
    quoting, CR LF line terminator) *)
Module csv.
Definition QUOTE : ascii := ascii_of_nat 34.

Definition special (c : ascii) : bool :=
  bool_decide (c = ","%char) || bool_decide (c = QUOTE)
  || bool_decide (c = ascii_of_nat 13) || bool_decide (c = ascii_of_nat 10).

Fixpoint needs_quote (s : string) : bool :=
  match s with
  | EmptyString => false
  | String c s' => special c || needs_quote s'
  end.

Fixpoint double_quotes (s : string) : string :=
  match s with
  | EmptyString => EmptyString
  | String c s' =>
      if bool_decide (c = QUOTE)
      then String c (String c (double_quotes s'))
      else String c (double_quotes s')
  end.

Definition quoted (s : string) : string :=
  String QUOTE (double_quotes s) +:+ String QUOTE EmptyString.

Section Writer.
Context {rt : PythonRuntime}.

Definition field_text (v : PyVal) : string :=
  match v with
  | VNone => ""
  | VStr s => s
  | _ => py_str v
  end.

Definition field (v : PyVal) : string :=
  let s := field_text v in
  if needs_quote s then quoted s else s.

Definition record (row : list PyVal) : string :=
  match row with
  | [v] => if bool_decide (field_text v = "") then quoted "" else field v
  | _ => String.concat "," (field <$> row)
  end.

Definition writerow (row : list PyVal) : string := record row +:+ CR +:+ NL.
End Writer.
End csv.

(** ** class TrainerMetrics *)
Module TrainerMetrics.

Record obj : Type := mk {
  path : string;
  brain_name : string;
  FIELD_NAMES : list string;
  rows : list (list PyVal);
  time_start_experience_collection : option float;
  time_training_start : float;
  last_buffer_length : option Z;
  last_mean_return : option float;
  time_policy_update_start : option float;
  delta_last_experience_collection : option float;
  delta_policy_update : option float
}.

Definition set_rows v o :=
  mk (path o) (brain_name o) (FIELD_NAMES o) v (time_start_experience_collection o)
     (time_training_start o) (last_buffer_length o) (last_mean_return o)
     (time_policy_update_start o) (delta_last_experience_collection o)
     (delta_policy_update o).
Definition set_time_start_experience_collection v o :=
  mk (path o) (brain_name o) (FIELD_NAMES o) (rows o) v
     (time_training_start o) (last_buffer_length o) (last_mean_return o)
     (time_policy_update_start o) (delta_last_experience_collection o)
     (delta_policy_update o).
Definition set_last_buffer_length v o :=
  mk (path o) (brain_name o) (FIELD_NAMES o) (rows o) (time_start_experience_collection o)
     (time_training_start o) v (last_mean_return o)
     (time_policy_update_start o) (delta_last_experience_collection o)
     (delta_policy_update o).
Definition set_last_mean_return v o :=
  mk (path o) (brain_name o) (FIELD_NAMES o) (rows o) (time_start_experience_collection o)
     (time_training_start o) (last_buffer_length o) v
     (time_policy_update_start o) (delta_last_experience_collection o)
     (delta_policy_update o).
Definition set_time_policy_update_start v o :=
  mk (path o) (brain_name o) (FIELD_NAMES o) (rows o) (time_start_experience_collection o)
     (time_training_start o) (last_buffer_length o) (last_mean_return o)
     v (delta_last_experience_collection o)
     (delta_policy_update o).
Definition set_delta_last_experience_collection v o :=
  mk (path o) (brain_name o) (FIELD_NAMES o) (rows o) (time_start_experience_collection o)
     (time_training_start o) (last_buffer_length o) (last_mean_return o)
     (time_policy_update_start o) v
     (delta_policy_update o).
Definition set_delta_policy_update v o :=
  mk (path o) (brain_name o) (FIELD_NAMES o) (rows o) (time_start_experience_collection o)
     (time_training_start o) (last_buffer_length o) (last_mean_return o)
     (time_policy_update_start o) (delta_last_experience_collection o)
     v.

Definition HEADER : list string :=
  ["Brain name"; "Time to update policy";
   "Time since start of training"; "Time for last experience collection";
   "Number of experiences used for training"; "Mean return"].

Definition __init__ (path brain_name : string) : M World obj :=
  now ← time;
  mret (mk path brain_name HEADER [] None now None None None None None).

Section Methods.
Context {rt : PythonRuntime}.

Definition start_experience_collection_timer : M (obj * World) unit :=
  marker ← self_get time_start_experience_collection;
  match marker with
  | None =>
      now ← world time;
      self_set (set_time_start_experience_collection (Some now))
  | Some _ => mret tt
  end.

Definition end_experience_collection_timer : M (obj * World) unit :=
  now ← world time;
  marker ← self_get time_start_experience_collection;
  delta ← lift_result (py_float_sub now (of_opt_float marker));
  self_set (set_delta_last_experience_collection (Some delta)) ;;
  self_set (set_time_start_experience_collection None).

Definition start_policy_update_timer (number_experiences : Z) (mean_return : float)
  : M (obj * World) unit :=
  self_set (set_last_buffer_length (Some number_experiences)) ;;
  self_set (set_last_mean_return (Some mean_return)) ;;
  now ← world time;
  self_set (set_time_policy_update_start (Some now)).

(** The argument of [logger.debug] in [end_policy_update]. *)
Definition policy_update_message
    (name delta_policy_update delta_train_start delta_collection
       buffer_length mean_return : PyVal) : Result string :=
  s1 ← py_format_3f delta_policy_update;
  s2 ← py_format_3f delta_train_start;
  s3 ← py_format_3f delta_collection;
  s5 ← py_format_3f mean_return;
  mret (" Policy Update Training Metrics for " +:+ py_str name +:+ ": "
        +:+ NL +:+ TAB +:+ TAB +:+ "Time to update Policy: " +:+ s1 +:+ " s " +:+ NL
        +:+ TAB +:+ TAB +:+ "Time elapsed since training: " +:+ s2 +:+ " s " +:+ NL
        +:+ TAB +:+ TAB +:+ "Time for experience collection: " +:+ s3 +:+ " s " +:+ NL
        +:+ TAB +:+ TAB +:+ "Buffer Length: " +:+ py_str buffer_length +:+ " " +:+ NL
        +:+ TAB +:+ TAB +:+ "Returns : " +:+ s5 +:+ NL).

(** One element of the generator handed to [row.extend]:
    [format(c, '.3f') if isinstance(c) is float else c]. *)
Definition row_cell (c : PyVal) : Result PyVal :=
  b ← py_isinstance [c];
  if py_is_float_class b
  then s ← py_format_3f c; mret (VStr s)
  else mret c.

(** [row.extend(g(c) for c in cs)]: elements are appended as the
    generator yields them. *)
Fixpoint list_extend (row : list PyVal) (g : PyVal → Result PyVal)
    (cs : list PyVal) : Result (list PyVal) :=
  match cs with
  | [] => Ok row
  | c :: cs' => v ← g c; list_extend (row ++ [v]) g cs'
  end.

Definition end_policy_update : M (obj * World) unit :=
  now ← world time;
  start ← self_get time_policy_update_start;
  delta ← lift_result (py_float_sub now (of_opt_float start));
  self_set (set_delta_policy_update (Some delta)) ;;
  now' ← world time;
  training_start ← self_get time_training_start;
  let delta_train_start := float_sub now' training_start in
  name ← self_get brain_name;
  dpu ← self_get delta_policy_update;
  dlec ← self_get delta_last_experience_collection;
  lbl ← self_get last_buffer_length;
  lmr ← self_get last_mean_return;
  msg ← lift_result
          (policy_update_message (VStr name) (of_opt_float dpu)
             (VFloat delta_train_start) (of_opt_float dlec)
             (of_opt_int lbl) (of_opt_float lmr));
  world (logger DEBUG msg) ;;
  let row := [VStr name] in
  row ← lift_result
          (list_extend row row_cell
             [of_opt_float dpu; VFloat delta_train_start; of_opt_float dlec;
              of_opt_int lbl; of_opt_float lmr]);
  self_set (λ o, set_rows (rows o ++ [row]) o).

Definition write_training_metrics : M (obj * World) unit :=
  p ← self_get path;
  world (open_w p) ;;
  names ← self_get FIELD_NAMES;
  world (file_write p (csv.writerow (VStr <$> names))) ;;
  rs ← self_get rows;
  for_each rs (λ r, world (file_write p (csv.writerow r))).
End Methods.
End TrainerMetrics.

(** List objects. [self.stats] maps a name to a reference, so that
    rebinding a key to a new empty list can be told apart from leaving
    the key alone. *)
Definition new_list : M World positive :=
  λ w, (Ok (next_list w),
        mkWorld (clock w) (ticks w) (log w) (fs w) (unwritable w)
                (Pos.succ (next_list w)) (<[next_list w := []]> (lists w))
                (written w) (flushes w)).

Definition list_value (ℓ : positive) : M World (list float) :=
  λ w, (Ok (default [] (lists w !! ℓ)), w).

(** [self.summary_writer]: a sink that records what it is given. *)
Definition add_summary (s : Summary) (step : Z) : M World unit :=
  λ w, (Ok tt,
        mkWorld (clock w) (ticks w) (log w) (fs w) (unwritable w)
                (next_list w) (lists w) (written w ++ [(s, step)]) (flushes w)).

Definition flush : M World unit :=
  λ w, (Ok tt,
        mkWorld (clock w) (ticks w) (log w) (fs w) (unwritable w)
                (next_list w) (lists w) (written w) (S (flushes w))).

(** [d[k]] on a dict with string keys. *)
Definition dict_getitem {V} (d : gmap string V) (k : string) : Result V :=
  match d !! k with
  | Some v => Ok v
  | None => Raise (KeyError k)
  end.

(** [for x in xs: acc = body(x, acc)], for loops that fill a local. *)
Fixpoint for_acc {S A B} (xs : list A) (acc : B) (body : A → B → M S B) : M S B :=
  match xs with
  | [] => mret acc
  | x :: xs' => acc' ← body x acc; for_acc xs' acc' body
  end.

Section Arithmetic.
Context {rt : PythonRuntime}.

(** [a % v] for an integer [a]. *)
Definition py_int_mod (a : Z) (v : PyVal) : Result PyVal :=
  let by_int b :=
    if b =? 0 then Raise (ZeroDivisionError "integer division or modulo by zero")
    else Ok (VInt (a mod b)) in
  match v with
  | VInt b => by_int b
  | VBool b => by_int (if b then 1 else 0)
  | VFloat y => r ← int_mod_float a y; mret (VFloat r)
  | VNone => Raise (TypeError "unsupported operand type(s) for %: 'int' and 'NoneType'")
  | VStr _ => Raise (TypeError "unsupported operand type(s) for %: 'int' and 'str'")
  | VClassFloat => Raise (TypeError "unsupported operand type(s) for %: 'int' and 'type'")
  end.

(** [v == 0] *)
Definition py_eq_zero (v : PyVal) : bool :=
  match v with
  | VInt z => z =? 0
  | VBool b => negb b
  | VFloat f => SFeqb f (S754_zero false)
  | _ => false
  end.
End Arithmetic.

(** The TensorFlow session used by [write_tensorboard_text]:
    [tf.Session()], [tf.summary.text(key, tf.convert_to_tensor(table))]
    and [sess.run], as one call that may do anything to the world and
    raise anything. *)
Class TensorFlow : Type := {
  session_run_text : string → list (list string) → M World string
}.

(** ** class Trainer *)
Module Trainer.

Record obj : Type := mk {
  param_keys : list string;
  brain_name : string;
  run_id : PyVal;
  trainer_parameters : gmap string PyVal;
  summary_path : string;
  trainer_metrics : TrainerMetrics.obj;
  cumulative_returns_since_policy_update : list float;
  is_training : bool;
  stats : gmap string positive
}.

Definition set_stats v o :=
  mk (param_keys o) (brain_name o) (run_id o) (trainer_parameters o) (summary_path o)
     (trainer_metrics o) (cumulative_returns_since_policy_update o) (is_training o) v.
Definition set_trainer_metrics v o :=
  mk (param_keys o) (brain_name o) (run_id o) (trainer_parameters o) (summary_path o)
     v (cumulative_returns_since_policy_update o) (is_training o) (stats o).

(** A call on [self.trainer_metrics]. *)
Definition on_trainer_metrics {A} (m : M (TrainerMetrics.obj * World) A)
  : M (obj * World) A :=
  λ '(o, w), let '(r, (tm, w')) := m (trainer_metrics o, w) in
             (r, (set_trainer_metrics tm o, w')).

(** [Trainer.__init__(brain, trainer_parameters, training, run_id)];
    [brain] enters through its [brain_name] only. The model follows the
    attribute bindings of lines 114-127 and 129. Of lines 120-121 and
    128 it keeps the exceptions that depend on the value alone: the
    empty string, which [os.makedirs] refuses with [FileNotFoundError]
    (an [OSError]); an integer outside the range of a C [int], which
    [os.path.exists] refuses with [OverflowError]; any other value that
    is not a string, which [os.path.exists], [os.makedirs] or
    [+ '.csv'] reject with [TypeError]. For any other string it takes
    the directory to exist or to be created and the [FileWriter] to
    open: the directory, the event file and what the operating system
    may refuse there are not part of this model's world, so nothing
    below is stated about them. [policy] is bound to [None]
    ([TrainerPolicy.Unset]). *)
Definition __init__ (brain_name : string) (trainer_parameters : gmap string PyVal)
    (training : bool) (run_id : PyVal) : M World obj :=
  sp ← lift_result (dict_getitem trainer_parameters "summary_path");
  match sp with
  | VStr EmptyString => raise (OSError "")
  | VStr summary_path =>
      metrics ← TrainerMetrics.__init__ (summary_path +:+ ".csv") brain_name;
      mret (mk [] brain_name run_id trainer_parameters summary_path metrics
               [] training ∅)
  | VInt n =>
      if decide (n < - 2 ^ 31) then raise (OverflowError "fd is less than minimum")
      else if decide (2 ^ 31 ≤ n) then raise (OverflowError "fd is greater than maximum")
      else raise (TypeError "summary_path is not a str")
  | _ => raise (TypeError "summary_path is not a str")
  end.

(** *** The operations a concrete trainer has to override *)

Definition parameters : M (obj * World) PyVal :=
  raise (UnityTrainerException "The parameters property was not implemented.").

Definition graph_scope : M (obj * World) PyVal :=
  raise (UnityTrainerException "The graph_scope property was not implemented.").

Definition get_max_steps : M (obj * World) Z :=
  raise (UnityTrainerException "The get_max_steps property was not implemented.").

Definition get_step : M (obj * World) Z :=
  raise (UnityTrainerException "The get_step property was not implemented.").

Definition get_last_reward : M (obj * World) PyVal :=
  raise (UnityTrainerException "The get_last_reward property was not implemented.").

Definition increment_step_and_update_last_reward : M (obj * World) PyVal :=
  raise (UnityTrainerException
           "The increment_step_and_update_last_reward method was not implemented.").

Definition add_experiences (curr_info next_info take_action_outputs : PyVal)
  : M (obj * World) PyVal :=
  raise (UnityTrainerException "The add_experiences method was not implemented.").

Definition process_experiences (current_info next_info : PyVal)
  : M (obj * World) PyVal :=
  raise (UnityTrainerException "The process_experiences method was not implemented.").

Definition end_episode : M (obj * World) PyVal :=
  raise (UnityTrainerException "The end_episode method was not implemented.").

Definition is_ready_update : M (obj * World) PyVal :=
  raise (UnityTrainerException "The is_ready_update method was not implemented.").

Definition update_policy : M (obj * World) PyVal :=
  raise (UnityTrainerException "The update_model method was not implemented.").

(** The class of the receiver: its [str(self.__class__)] and the two
    properties the inherited methods read through [self]. *)
Class TrainerClass : Type := {
  class_repr : string;
  self_get_step : M (obj * World) Z;
  self_get_max_steps : M (obj * World) Z
}.

(** [Trainer] itself, nothing overridden. *)
Definition Base : TrainerClass := {|
  class_repr := "<class 'mlagents.trainers.trainer.Trainer'>";
  self_get_step := get_step;
  self_get_max_steps := get_max_steps
|}.

Definition CUMULATIVE_REWARD : string := "Environment/Cumulative Reward".

Section Methods.
Context {rt : PythonRuntime} {tf : TensorFlow} {cls : TrainerClass}.

Definition __str__ : M (obj * World) string :=
  mret (class_repr +:+ " Trainer").

(** The body of [for k in self.param_keys] in [check_param_keys]. *)
Definition check_param_key (k : string) : M (obj * World) unit :=
  params ← self_get trainer_parameters;
  if decide (k ∈ dom params) return M (obj * World) unit then mret tt
  else
    name ← self_get brain_name;
    raise (UnityTrainerException
             ("The hyper-parameter " +:+ k +:+ " could not be found for the "
                +:+ class_repr +:+ " trainer of brain " +:+ name +:+ ".")).

Definition check_param_keys : M (obj * World) unit :=
  keys ← self_get param_keys;
  for_each keys check_param_key.

Definition write_training_metrics : M (obj * World) unit :=
  on_trainer_metrics TrainerMetrics.write_training_metrics.

(** [len(self.stats[key])] and [np.mean(self.stats[key])] read the
    list the key is bound to. *)
Definition stats_getitem (key : string) : M (obj * World) (list float) :=
  st ← self_get stats;
  ℓ ← lift_result (dict_getitem st key);
  world (list_value ℓ).

(** The body of [for key in self.stats] in [write_summary];
    [summary] is the local [tf.Summary()]. *)
Definition summarize_key (key : string) (summary : list SummaryValue)
  : M (obj * World) (list SummaryValue) :=
  samples ← stats_getitem key;
  if (0 <? length samples)%nat return M (obj * World) (list SummaryValue) then
    samples ← stats_getitem key;
    let stat_mean := np_mean samples in
    let summary := summary ++ [(key, VFloat stat_mean)] in
    ℓ ← world new_list;
    self_set (λ o, set_stats (<[key := ℓ]> (stats o)) o) ;;
    mret summary
  else mret summary.

(** The two templates [write_summary] fills with [.format]. In
    [write_summary] below the keys of [self.stats] are visited in the
    order of [map_to_list], not in the dict's insertion order; no
    statement depends on the order of the summary values. *)
Definition reward_line (id : PyVal) (name : string) (step : Z)
    (delta_train_start mean_reward std_reward : float) (is_training : string)
  : string :=
  " " +:+ py_str id +:+ ": " +:+ name +:+ ": Step: " +:+ str_of_Z step
    +:+ ". Time Elapsed: " +:+ format_3f delta_train_start
    +:+ " s Mean Reward: " +:+ format_3f mean_reward
    +:+ ". Std of Reward: " +:+ format_3f std_reward +:+ ". " +:+ is_training.

Definition no_episode_line (id : PyVal) (name : string) (step : Z)
    (is_training : string) : string :=
  " " +:+ py_str id +:+ ": " +:+ name +:+ ": Step: " +:+ str_of_Z step
    +:+ ". No episode was completed since last summary. " +:+ is_training.

Definition write_summary (global_step : Z) (delta_train_start : float)
    (lesson_num : Z) : M (obj * World) unit :=
  params ← self_get trainer_parameters;
  freq ← lift_result (dict_getitem params "summary_freq");
  r ← lift_result (py_int_mod global_step freq);
  if py_eq_zero r && negb (global_step =? 0) return M (obj * World) unit then
    training ← self_get is_training;
    is_training ←
      (if training : bool return M (obj * World) string then
         step ← self_get_step;
         max_steps ← self_get_max_steps;
         mret (if step <=? max_steps then "Training." else "Not Training.")
       else mret "Not Training.");
    rewards ← stats_getitem CUMULATIVE_REWARD;
    (if (0 <? length rewards)%nat return M (obj * World) unit then
       rewards ← stats_getitem CUMULATIVE_REWARD;
       let mean_reward := np_mean rewards in
       id ← self_get run_id;
       name ← self_get brain_name;
       step ← self_get_step;
       max_steps ← self_get_max_steps;
       rewards ← stats_getitem CUMULATIVE_REWARD;
       world (logger INFO
                (reward_line id name (Z.min step max_steps) delta_train_start
                   mean_reward (np_std rewards) is_training))
     else
       id ← self_get run_id;
       name ← self_get brain_name;
       step ← self_get_step;
       world (logger INFO (no_episode_line id name step is_training))) ;;
    st ← self_get stats;
    summary ← for_acc (map_to_list st).*1 [] summarize_key;
    let summary := summary ++ [("Environment/Lesson", VInt lesson_num)] in
    step ← self_get_step;
    world (add_summary (Scalars summary) step) ;;
    world flush
  else mret tt.

Definition CANNOT_WRITE_TEXT : string :=
  "Cannot write text summary for Tensorboard. "
    +:+ "Tensorflow version must be r1.2 or above.".

(** The [try:] block of [write_tensorboard_text]. *)
Definition write_tensorboard_text_try (key : string)
    (input_dict : list (PyVal * PyVal)) : M (obj * World) unit :=
  s ← world (session_run_text key
               ((λ item : PyVal * PyVal, [py_str item.1; py_str item.2])
                  <$> input_dict));
  step ← self_get_step;
  world (add_summary (Serialized s) step).

Definition write_tensorboard_text (key : string) (input_dict : list (PyVal * PyVal))
  : M (obj * World) unit :=
  try_except (write_tensorboard_text_try key input_dict)
    (λ _, world (logger INFO CANNOT_WRITE_TEXT)).
End Methods.
End Trainer.

(** ** Vocabulary of the statements *)

(** What [write_training_metrics] leaves in the file: the header record
    followed by the records of the rows. *)
Definition file_text {rt : PythonRuntime} (m : TrainerMetrics.obj) : string :=
  csv.writerow (VStr <$> TrainerMetrics.FIELD_NAMES m)
    +:+ String.concat "" (csv.writerow <$> TrainerMetrics.rows m).

Definition HEADER_LINE : string :=
  "Brain name,Time to update policy,Time since start of training,"
    +:+ "Time for last experience collection,"
    +:+ "Number of experiences used for training,Mean return" +:+ CR +:+ NL.

(** The allocator hands out references it has not handed out before,
    and the statistics refer to lists that exist. *)
Definition heap_wf (w : World) : Prop :=
  map_Forall (λ ℓ _, (ℓ < next_list w)%positive) (lists w).

Definition stats_bound (o : Trainer.obj) (w : World) : Prop :=
  map_Forall (λ _ ℓ, is_Some (lists w !! ℓ)) (Trainer.stats o).

#[global] Instance heap_wf_dec (w : World) : Decision (heap_wf w).
Proof. unfold heap_wf. apply _. Defined.

#[global] Instance stats_bound_dec (o : Trainer.obj) (w : World) :
  Decision (stats_bound o w).
Proof. unfold stats_bound. apply _. Defined.

(** The receiver's class overrides [get_step] and [get_max_steps] with
    properties that return. *)
Definition overrides_steps {cls : Trainer.TrainerClass} (step max_steps : Z) : Prop :=
  (∀ s, Trainer.self_get_step s = (Ok step, s))
  ∧ (∀ s, Trainer.self_get_max_steps s = (Ok max_steps, s)).

(** The effect of a summary on the statistics, from state [(o, w)] to
    [(o', w')] with [values] handed to the writer: a key with samples
    has their mean among the values and is bound to a new, empty list;
    a key with no samples is bound to the list it was bound to. *)
Definition summarized {rt : PythonRuntime} (o : Trainer.obj) (w : World)
    (o' : Trainer.obj) (w' : World) (values : list SummaryValue) : Prop :=
  ∀ key ℓ,
    Trainer.stats o !! key = Some ℓ →
    let samples := default [] (lists w !! ℓ) in
    if decide (samples = [])
    then Trainer.stats o' !! key = Some ℓ ∧ lists w' !! ℓ = lists w !! ℓ
    else (key, VFloat (np_mean samples)) ∈ values
         ∧ ∃ ℓ', Trainer.stats o' !! key = Some ℓ'
                 ∧ lists w !! ℓ' = None ∧ lists w' !! ℓ' = Some [].

(** The last argument of both log lines of [write_summary]. *)
Definition status_text (o : Trainer.obj) (step max_steps : Z) : string :=
  if Trainer.is_training o
  then (if step <=? max_steps then "Training." else "Not Training.")
  else "Not Training.".

(** The line [write_summary] logs when the cumulative-reward key is
    bound to the list [ℓ]: the no-episode line if that list is empty,
    the mean-and-deviation line otherwise. *)
Definition summary_line {rt : PythonRuntime} (o : Trainer.obj) (w : World)
    (ℓ : positive) (delta_train_start : float) (step max_steps : Z) : string :=
  let rewards := default [] (lists w !! ℓ) in
  if decide (rewards = [])
  then Trainer.no_episode_line (Trainer.run_id o) (Trainer.brain_name o) step
         (status_text o step max_steps)
  else Trainer.reward_line (Trainer.run_id o) (Trainer.brain_name o)
         (Z.min step max_steps) delta_train_start
         (np_mean rewards) (np_std rewards) (status_text o step max_steps).

(** Everything in the world but the list objects is as it was. *)
Definition same_outside_lists (w w' : World) : Prop :=
  clock w' = clock w ∧ ticks w' = ticks w ∧ log w' = log w ∧ fs w' = fs w
  ∧ unwritable w' = unwritable w ∧ written w' = written w
  ∧ flushes w' = flushes w.

(** ** Drivers

    What a caller does with the methods above: call one several times,
    or call it and carry on after an exception. *)
Fixpoint call_times {S} (n : nat) (m : M S unit) : M S unit :=
  match n with
  | O => mret tt
  | Datatypes.S n' => m ;; call_times n' m
  end.

Definition attempt {S} (m : M S unit) : M S unit :=
  try_except m (λ _, mret tt).

Section Drivers.
Context {rt : PythonRuntime}.

(** One policy update as the training loop reports it to the recorder. *)
Definition policy_update (arg : Z * float) : M (TrainerMetrics.obj * World) unit :=
  TrainerMetrics.start_policy_update_timer arg.1 arg.2 ;;
  attempt TrainerMetrics.end_policy_update.

(** The five methods of the recorder, as a caller may invoke them. *)
Inductive MetricsCall : Type :=
| StartCollection
| EndCollection
| StartUpdate (number_experiences : Z) (mean_return : float)
| EndUpdate
| WriteMetrics.

Definition metrics_call (c : MetricsCall) : M (TrainerMetrics.obj * World) unit :=
  match c with
  | StartCollection => TrainerMetrics.start_experience_collection_timer
  | EndCollection => TrainerMetrics.end_experience_collection_timer
  | StartUpdate n r => TrainerMetrics.start_policy_update_timer n r
  | EndUpdate => TrainerMetrics.end_policy_update
  | WriteMetrics => TrainerMetrics.write_training_metrics
  end.
End Drivers.

(** ** A concrete runtime, used to evaluate the model on examples *)
Module Demo.
(** The float [m * 2^e]. *)
Definition F (m e : Z) : float := binary_normalize 53 1024 m e false.

Definition float_add : float → float → float := SFadd 53 1024.
Definition float_mul : float → float → float := SFmul 53 1024.
Definition float_div : float → float → float := SFdiv 53 1024.

(** Decimal expansion of a float, which is finite; it is what [repr]
    prints for floats with few binary digits (0.5, 1.5, 2.0, ...). *)
Fixpoint strip_zeros (fuel : nat) (digits : Z) (count : Z) : Z * Z :=
  match fuel with
  | O => (digits, count)
  | Datatypes.S fuel' =>
      if (1 <? count) && (digits mod 10 =? 0)
      then strip_zeros fuel' (digits / 10) (count - 1)
      else (digits, count)
  end.

Fixpoint zeros (n : nat) : string :=
  match n with O => "" | Datatypes.S n' => "0" +:+ zeros n' end.

Definition expansion (x : float) : string :=
  match x with
  | S754_nan => "nan"
  | S754_infinity s => if s then "-inf" else "inf"
  | S754_zero s => if s then "-0.0" else "0.0"
  | S754_finite s m e =>
      (if s then "-" else "") +:+
      (if 0 <=? e then str_of_Z (Z.pos m * 2 ^ e) +:+ ".0"
       else
         let k := - e in
         let whole := Z.pos m / 2 ^ k in
         let frac := (Z.pos m mod 2 ^ k) * 5 ^ k in
         let '(digits, count) := strip_zeros (Z.to_nat k) frac k in
         let text := str_of_Z digits in
         str_of_Z whole +:+ "." +:+
           zeros (Z.to_nat count - String.length text) +:+ text)
  end.

(** [a % y]: the exact remainder of the floats' values, with the sign
    of the divisor. *)
Definition scaled (x : float) (e0 : Z) : Z :=
  match x with
  | S754_finite s m e => (if s then -1 else 1) * Z.pos m * 2 ^ (e - e0)
  | _ => 0
  end.

Definition exponent (x : float) : Z :=
  match x with S754_finite _ _ e => e | _ => 0 end.

Definition sign (x : float) : bool :=
  match x with
  | S754_finite s _ _ | S754_zero s | S754_infinity s => s
  | S754_nan => false
  end.

Definition mod_float (a : Z) (y : float) : Result float :=
  let x := float_of_Z a in
  match x, y with
  | S754_infinity _, _ => Raise (OverflowError "int too large to convert to float")
  | _, S754_zero _ => Raise (ZeroDivisionError "float modulo")
  | _, S754_nan => Ok S754_nan
  | S754_zero _, _ => Ok (S754_zero (sign y))
  | _, S754_infinity s => Ok (if Bool.eqb (sign x) s then x else y)
  | _, _ =>
      let e0 := Z.min (exponent x) (exponent y) in
      Ok (binary_normalize 53 1024 (scaled x e0 mod scaled y e0) e0 (sign y))
  end.

Definition total (xs : list float) : float := foldl float_add (S754_zero false) xs.

Definition mean (xs : list float) : float :=
  float_div (total xs) (float_of_Z (Z.of_nat (length xs))).

Definition std (xs : list float) : float :=
  let μ := mean xs in
  SFsqrt 53 1024
    (mean ((λ x, float_mul (float_sub x μ) (float_sub x μ)) <$> xs)).

Definition runtime : PythonRuntime := {|
  float_repr := expansion;
  int_mod_float := mod_float;
  np_mean := mean;
  np_std := std
|}.

(** A TensorFlow without [tf.summary.text] (older than r1.2), and one
    whose session returns the table it was given. *)
Definition tf_old : TensorFlow := {|
  session_run_text := λ _ _,
    raise (OtherException "AttributeError"
             "module 'tensorflow.summary' has no attribute 'text'")
|}.

Definition tf_ok : TensorFlow := {|
  session_run_text := λ key table, mret (key +:+ String.concat "," (concat table))
|}.

(** A trainer class that overrides the two step properties with
    attributes of its own. *)
Definition Concrete (step max_steps : Z) : Trainer.TrainerClass := {|
  Trainer.class_repr := "<class 'mlagents.trainers.ppo.trainer.PPOTrainer'>";
  Trainer.self_get_step := mret step;
  Trainer.self_get_max_steps := mret max_steps
|}.

(** A world whose clock reads 0.0, 1.0, 2.0, ... *)
Definition world0 : World :=
  mkWorld (λ n, F (Z.of_nat n) 0) 0 [] ∅ ∅ 1%positive ∅ [] 0.

(** [TrainerMetrics('run.csv', 'Brain')] *)
Definition metrics0 : TrainerMetrics.obj :=
  TrainerMetrics.mk "run.csv" "Brain" TrainerMetrics.HEADER [] None (F 0 0)
    None None None None None.

(** One full cycle reported to the recorder, with 10 experiences and
    a mean return of 1.5. *)
Definition one_cycle : list MetricsCall :=
  [StartCollection; EndCollection; StartUpdate 10 (F 3 (-1)); EndUpdate].

Definition params (summary_freq : Z) : gmap string PyVal :=
  {[ "summary_freq" := VInt summary_freq;
     "summary_path" := VStr "./summaries/run1";
     "batch_size" := VInt 1024 ]}.

Definition trainer (freq : Z) (training : bool) (stats : gmap string positive)
  : Trainer.obj :=
  Trainer.mk ["batch_size"; "beta"] "Brain" (VStr "run1") (params freq)
    "./summaries/run1" metrics0 [] training stats.

(** The same trainer, declaring only keys its configuration has. *)
Definition trainer_complete : Trainer.obj :=
  Trainer.mk ["batch_size"; "summary_freq"] "Brain" (VStr "run1") (params 1000)
    "./summaries/run1" metrics0 [] true ∅.

(** Rewards [1.0, 3.0], one loss sample [0.5], no entropy sample. *)
Definition stats_full : gmap string positive :=
  {[ Trainer.CUMULATIVE_REWARD := 1%positive;
     "Losses/Value Loss" := 2%positive;
     "Policy/Entropy" := 3%positive ]}.

Definition world_full : World :=
  mkWorld (clock world0) 0 [] ∅ ∅ 4%positive
    {[ 1%positive := [F 1 0; F 3 0]; 2%positive := [F 1 (-1)]; 3%positive := [] ]}
    [] 0.

(** A loss sample and no entry for the cumulative reward. *)
Definition stats_loss : gmap string positive := {[ "Losses/Value Loss" := 1%positive ]}.

Definition world_loss : World :=
  mkWorld (clock world0) 0 [] ∅ ∅ 2%positive {[ 1%positive := [F 1 (-1)] ]} [] 0.
End Demo.

(** ** The methods of [Trainer] that go through [self.policy] *)

(** The policy collaborator: three methods that act on the world and
    may raise. *)
Record Policy : Type := mkPolicy {
  policy_get_action : PyVal → M World PyVal;
  policy_save_model : Z → M World PyVal;
  policy_export_model : M World PyVal
}.

Module TrainerPolicy.

(** [self.policy]: [Trainer.__init__] binds it to [None], the
    constructor of a concrete trainer to its policy. *)
Class PolicyAttribute : Type := { self_policy : option Policy }.

(** The attribute as [Trainer.__init__] leaves it. *)
Definition Unset : PolicyAttribute := {| self_policy := None |}.

Definition no_attribute (name : string) : Exception :=
  OtherException "AttributeError"
    ("'NoneType' object has no attribute '" +:+ name +:+ "'").

Section Methods.
Context {cls : Trainer.TrainerClass} {pol : PolicyAttribute}.

Definition get_action (curr_info : PyVal) : M (Trainer.obj * World) PyVal :=
  Trainer.on_trainer_metrics TrainerMetrics.start_experience_collection_timer ;;
  match self_policy with
  | Some p => world (policy_get_action p curr_info)
  | None => raise (no_attribute "get_action")
  end.

(** [self.policy.save_model(self.get_step)]: the method is looked up
    on the policy before the argument is evaluated. *)
Definition save_model : M (Trainer.obj * World) unit :=
  match self_policy with
  | Some p =>
      step ← Trainer.self_get_step;
      world (policy_save_model p step) ;;
      mret tt
  | None => raise (no_attribute "save_model")
  end.

Definition export_model : M (Trainer.obj * World) unit :=
  match self_policy with
  | Some p => world (policy_export_model p) ;; mret tt
  | None => raise (no_attribute "export_model")
  end.
End Methods.
End TrainerPolicy.

(** ** More vocabulary *)

(** The values the loop of [write_summary] adds to the summary: one per
    key that has samples, the mean of those samples. They are listed
    here in the order of [map_to_list]; the loop of the source visits
    the keys in the dict's insertion order, which [stats] does not
    record, so a statement about the source takes this list up to a
    permutation. *)
Definition summary_value {rt : PythonRuntime} (w : World)
    (item : string * positive) : option SummaryValue :=
  let samples := default [] (lists w !! item.2) in
  if decide (samples = []) then None
  else Some (item.1, VFloat (np_mean samples)).

Definition summary_values {rt : PythonRuntime} (o : Trainer.obj) (w : World)
  : list SummaryValue :=
  omap (summary_value w) (map_to_list (Trainer.stats o)).

(** A caller that drops the value a method returns and carries on
    after an exception. *)
Definition ignore {S A} (m : M S A) : M S unit :=
  try_except (m ;; mret tt) (λ _, mret tt).

Module DemoPolicy.
(** A policy whose methods log what they are asked and return. *)
Definition logging : Policy := {|
  policy_get_action := λ curr_info,
    logger INFO "policy.get_action" ;; mret (VStr "action");
  policy_save_model := λ step,
    logger INFO ("policy.save_model " +:+ str_of_Z step) ;; mret VNone;
  policy_export_model := logger INFO "policy.export_model" ;; mret VNone
|}.

Definition Bound : TrainerPolicy.PolicyAttribute :=
  {| TrainerPolicy.self_policy := Some logging |}.

(** A recorder holding two rows, as a working [end_policy_update]
    would have stored them. *)
Definition metrics_rows : TrainerMetrics.obj :=
  TrainerMetrics.mk "run.csv" "Brain" TrainerMetrics.HEADER
    [[VStr "Brain"; VStr "1.000"; VStr "4.000"; VStr "1.000"; VInt 10; VStr "1.500"];
     [VStr "Brain"; VStr "0.500"; VStr "9.250"; VStr "3.000"; VInt 20; VStr "-2.000"]]
    None (Demo.F 0 0) None None None None None.

(** A trainer whose configuration has no [summary_freq], and one
    where it is a string. *)
Definition trainer_no_freq : Trainer.obj :=
  Trainer.mk [] "Brain" (VStr "run1") {[ "summary_path" := VStr "./summaries/run1" ]}
    "./summaries/run1" Demo.metrics0 [] true ∅.

Definition trainer_str_freq : Trainer.obj :=
  Trainer.mk [] "Brain" (VStr "run1")
    {[ "summary_path" := VStr "./summaries/run1"; "summary_freq" := VStr "often" ]}
    "./summaries/run1" Demo.metrics0 [] true ∅.
End DemoPolicy.

(** ** Three-decimal texts *)






(** A row whose cells are what lines 86-90 of [end_policy_update]
    describe: the name, the three durations as three-decimal texts, the
    experience count as an integer, the mean return as a three-decimal
    text. *)
Definition three_decimal_row (name : string) (update total collection : float)
    (count : Z) (mean_return : float) : list PyVal :=
  [VStr name; VStr (format_3f update); VStr (format_3f total);
   VStr (format_3f collection); VInt count; VStr (format_3f mean_return)].

(** * Properties *)

(** ** Running monadic code *)

Lemma bind_run {S A B} (m : M S A) (f : A → M S B) (s : S) :
  (m ≫= f) s = match m s with
               | (Ok a, s') => f a s'
               | (Raise e, s') => (Raise e, s')
               end.
Proof. reflexivity. Qed.

Ltac run := repeat (rewrite bind_run; simpl).

Lemma call_times_fixed {S} (m : M S unit) (s : S) (n : nat) :
  m s = (Ok tt, s) → call_times n m s = (Ok tt, s).
Proof.
  intros Hm. induction n as [|n IH]; [reflexivity|].
  simpl. rewrite bind_run, Hm. exact IH.
Qed.

Lemma append_empty_r (s : string) : s +:+ "" = s.
Proof.
  induction s as [|c s IH]; [done|].
  change (String c (s +:+ "") = String c s). by rewrite IH.
Qed.

Lemma append_assoc (a b c : string) : (a +:+ b) +:+ c = a +:+ b +:+ c.
Proof.
  induction a as [|x a IH]; [done|].
  change (String x ((a +:+ b) +:+ c) = String x (a +:+ b +:+ c)). by rewrite IH.
Qed.

(** ** The metrics recorder *)
Section Recorder.
Context {rt : PythonRuntime}.
Import TrainerMetrics.

Lemma start_collection_in_progress (m : obj) (w : World) :
is_Some (time_start_experience_collection m) →
start_experience_collection_timer (m, w) = (Ok tt, (m, w)).
Proof.
intros [t Ht]. unfold start_experience_collection_timer.
rewrite bind_run. simpl. rewrite Ht. reflexivity.
Qed.

Lemma start_collection_fresh (m : obj) (w : World) :
time_start_experience_collection m = None →
start_experience_collection_timer (m, w)
= (Ok tt, (set_time_start_experience_collection (Some (clock w (ticks w))) m,
           (time w).2)).
Proof.
intros Hm. unfold start_experience_collection_timer.
rewrite bind_run. simpl. rewrite Hm. reflexivity.
Qed.

(** C4. The first of a run of [start_experience_collection_timer] calls
  returns and leaves a marker: the clock reading if there was none,
  the old marker otherwise. Any number of further calls return and
  leave the recorder and the world exactly as the first call left
  them. *)
Theorem C4_start_experience_collection_timer_idempotent (m : obj) (w : World) :
let first := start_experience_collection_timer (m, w) in
first.1 = Ok tt
∧ time_start_experience_collection first.2.1
  = Some (default (clock w (ticks w)) (time_start_experience_collection m))
∧ ∀ n : nat,
    call_times n start_experience_collection_timer first.2 = (Ok tt, first.2).
Proof.
cbv zeta.
destruct (time_start_experience_collection m) as [t|] eqn:Hm.
- rewrite start_collection_in_progress by (rewrite Hm; eauto). simpl.
  repeat split; [exact Hm|]. intros n.
  apply call_times_fixed, start_collection_in_progress. rewrite Hm; eauto.
- rewrite (start_collection_fresh m w Hm). simpl.
  repeat split. intros n.
  apply call_times_fixed, start_collection_in_progress. simpl; eauto.
Qed.

Lemma end_experience_collection_timer_run (m : obj) (w : World) :
end_experience_collection_timer (m, w)
= match time_start_experience_collection m with
  | Some started =>
      (Ok tt,
       (set_time_start_experience_collection None
          (set_delta_last_experience_collection
             (Some (float_sub (clock w (ticks w)) started)) m),
        (time w).2))
  | None =>
      (Raise (TypeError "unsupported operand type(s) for -: 'float' and 'NoneType'"),
       (m, (time w).2))
  end.
Proof.
unfold end_experience_collection_timer.
destruct (time_start_experience_collection m) as [t|] eqn:Hm;
  run; rewrite Hm; reflexivity.
Qed.

(** C5. With a marker present, [end_experience_collection_timer] stores
  the clock reading minus the marker as the last collection duration
  and clears the marker, and a [start_experience_collection_timer]
  that follows sets the marker to the next clock reading; with no
  marker it raises [TypeError] and stores nothing (only the clock has
  been read). *)
Theorem C5_end_experience_collection_timer (m : obj) (w : World) :
end_experience_collection_timer (m, w)
= match time_start_experience_collection m with
  | Some started =>
      (Ok tt,
       (mk (path m) (brain_name m) (FIELD_NAMES m) (rows m)
           None
           (time_training_start m) (last_buffer_length m) (last_mean_return m)
           (time_policy_update_start m)
           (Some (float_sub (clock w (ticks w)) started))
           (delta_policy_update m),
        (time w).2))
  | None =>
      (Raise (TypeError "unsupported operand type(s) for -: 'float' and 'NoneType'"),
       (m, (time w).2))
  end
∧ match time_start_experience_collection m with
  | Some _ =>
      time_start_experience_collection
        (start_experience_collection_timer
           (end_experience_collection_timer (m, w)).2).2.1
      = Some (clock w (S (ticks w)))
  | None => True
  end.
Proof.
split; [apply end_experience_collection_timer_run|].
rewrite end_experience_collection_timer_run.
destruct (time_start_experience_collection m); [|done].
cbn [snd]. by rewrite start_collection_fresh.
Qed.

Lemma row_cell_raises (c : PyVal) :
row_cell c = Raise (TypeError "isinstance expected 2 arguments, got 1").
Proof. reflexivity. Qed.

(** Whatever the state, [end_policy_update] ends in an exception, and
  the rows, the path and the header are as before. *)
Lemma end_policy_update_raises (m : obj) (w : World) :
∃ e m' w',
  end_policy_update (m, w) = (Raise e, (m', w'))
  ∧ rows m' = rows m
  ∧ path m' = path m
  ∧ FIELD_NAMES m' = FIELD_NAMES m
  ∧ unwritable w' = unwritable w.
Proof.
unfold end_policy_update. run.
destruct (time_policy_update_start m) as [t0|]; simpl; [|by eauto 10].
run. unfold policy_update_message.
destruct (delta_last_experience_collection m) as [d|]; simpl; [|by eauto 10].
destruct (last_mean_return m) as [r|]; simpl; [|by eauto 10].
run. eauto 10.
Qed.

(** With both timers used as intended, the exception is the one raised
  by [isinstance(c)]. *)
Lemma end_policy_update_isinstance (m : obj) (w : World) (t0 d r : float) :
time_policy_update_start m = Some t0 →
delta_last_experience_collection m = Some d →
last_mean_return m = Some r →
(end_policy_update (m, w)).1
= Raise (TypeError "isinstance expected 2 arguments, got 1").
Proof.
intros H0 Hd Hr. unfold end_policy_update. run. rewrite H0. simpl. run.
rewrite Hd, Hr. unfold policy_update_message. simpl. run. reflexivity.
Qed.

Lemma attempt_end_policy_update (m : obj) (w : World) :
∃ m' w',
  attempt end_policy_update (m, w) = (Ok tt, (m', w'))
  ∧ rows m' = rows m ∧ path m' = path m ∧ FIELD_NAMES m' = FIELD_NAMES m
  ∧ unwritable w' = unwritable w.
Proof.
destruct (end_policy_update_raises m w) as (e & m' & w' & Hrun & Hrest).
exists m', w'. unfold attempt, try_except. rewrite Hrun. done.
Qed.

Lemma policy_update_keeps_rows (arg : Z * float) (m : obj) (w : World) :
∃ m' w', policy_update arg (m, w) = (Ok tt, (m', w')) ∧ rows m' = rows m.
Proof.
unfold policy_update, start_policy_update_timer. run.
match goal with |- context [attempt _ (?m1, ?w1)] =>
  destruct (attempt_end_policy_update m1 w1) as (m' & w' & Hrun & Hrows & _)
end.
rewrite Hrun. eauto.
Qed.

(** C1 (what the code does). However many policy updates are reported,
  each with its experience count and mean return, the recorder ends
  with the rows it started with: every [end_policy_update] raises
  before it appends, so N calls leave 0 new rows, not N. *)
Theorem C1_end_policy_update_appends_no_row
  (updates : list (Z * float)) (m : obj) (w : World) :
∃ m' w',
  for_each updates policy_update (m, w) = (Ok tt, (m', w'))
  ∧ rows m' = rows m.
Proof.
revert m w. induction updates as [|arg updates IH]; intros m w.
- by exists m, w.
- destruct (policy_update_keeps_rows arg m w) as (m1 & w1 & Hrun & Hrows).
  destruct (IH m1 w1) as (m2 & w2 & Hrun' & Hrows').
  exists m2, w2. simpl. rewrite bind_run, Hrun, Hrun'. split; congruence.
Qed.

(** Writing records one after the other appends their concatenation. *)
Lemma write_rows (p : string) (rs : list (list PyVal)) (m : obj) (w : World)
  (content : string) :
fs w !! p = Some content →
for_each rs (λ r, world (file_write p (csv.writerow r))) (m, w)
= (Ok tt,
   (m, mkWorld (clock w) (ticks w) (log w)
         (<[p := content +:+ String.concat "" (csv.writerow <$> rs)]> (fs w))
         (unwritable w) (next_list w) (lists w) (written w) (flushes w))).
Proof.
revert w content. induction rs as [|r rs IH]; intros w content Hp.
- simpl. rewrite append_empty_r, insert_id by done. by destruct w.
- cbn [for_each]. rewrite bind_run. simpl. rewrite Hp. simpl.
  erewrite IH by (simpl; apply lookup_insert_eq). simpl.
  rewrite insert_insert_eq.
  do 3 f_equal. f_equal. rewrite append_assoc. f_equal.
  destruct rs; simpl; [by rewrite append_empty_r|done].
Qed.

Lemma write_training_metrics_run (m : obj) (w : World) :
write_training_metrics (m, w)
= if decide (path m ∈ unwritable w)
  then (Raise (OSError (path m)), (m, w))
  else (Ok tt,
        (m, mkWorld (clock w) (ticks w) (log w)
              (<[path m := file_text m]> (fs w))
              (unwritable w) (next_list w) (lists w) (written w) (flushes w))).
Proof.
unfold write_training_metrics. run. unfold open_w.
destruct (decide (path m ∈ unwritable w)); [done|]. simpl. run.
rewrite lookup_insert_eq. simpl.
erewrite write_rows by (simpl; apply lookup_insert_eq). simpl.
by rewrite !insert_insert_eq.
Qed.

(** Each method, called by a caller that carries on after an exception,
  leaves the rows, the path and the header alone. *)
Lemma metrics_call_frame (c : MetricsCall) (m : obj) (w : World) :
∃ m' w',
  attempt (metrics_call c) (m, w) = (Ok tt, (m', w'))
  ∧ rows m' = rows m ∧ path m' = path m ∧ FIELD_NAMES m' = FIELD_NAMES m
  ∧ unwritable w' = unwritable w.
Proof.
destruct c as [| |n r| |]; cbn [metrics_call].
- unfold attempt, try_except.
  destruct (time_start_experience_collection m) as [t|] eqn:Hm.
  + rewrite start_collection_in_progress by (rewrite Hm; eauto). eauto 10.
  + rewrite start_collection_fresh by done. eauto 10.
- unfold attempt, try_except. rewrite end_experience_collection_timer_run.
  destruct (time_start_experience_collection m); eauto 10.
- unfold attempt, try_except, start_policy_update_timer. run. eauto 10.
- apply attempt_end_policy_update.
- unfold attempt, try_except. rewrite write_training_metrics_run.
  destruct (decide _); eauto 10.
Qed.

Lemma metrics_calls_frame (calls : list MetricsCall) (m : obj) (w : World) :
∃ m' w',
  for_each calls (λ c, attempt (metrics_call c)) (m, w) = (Ok tt, (m', w'))
  ∧ rows m' = rows m ∧ path m' = path m ∧ FIELD_NAMES m' = FIELD_NAMES m
  ∧ unwritable w' = unwritable w.
Proof.
revert m w. induction calls as [|c calls IH]; intros m w; [by exists m, w|].
destruct (metrics_call_frame c m w) as (m1 & w1 & Hrun & ? & ? & ? & ?).
destruct (IH m1 w1) as (m2 & w2 & Hrun' & ? & ? & ? & ?).
exists m2, w2. cbn [for_each]. rewrite bind_run, Hrun, Hrun'.
repeat split; congruence.
Qed.


(** Take a new recorder on a writable path and let the caller make
  any calls at all, carrying on after exceptions. The recorder still
  has no row, and [write_training_metrics] leaves a file that holds
  the header line and nothing else. *)
Lemma recorder_file_after_any_calls
  (calls : list MetricsCall) (p name : string) (w : World) :
p ∉ unwritable w →
∃ m0 w0 m1 w1 w2,
  __init__ p name w = (Ok m0, w0)
  ∧ for_each calls (λ c, attempt (metrics_call c)) (m0, w0) = (Ok tt, (m1, w1))
  ∧ rows m1 = []
  ∧ write_training_metrics (m1, w1) = (Ok tt, (m1, w2))
  ∧ fs w2 !! p = Some HEADER_LINE.
Proof.
intros Hp. eexists _, _.
destruct (metrics_calls_frame calls
            (mk p name HEADER [] None (clock w (ticks w)) None None None None None)
            (time w).2) as (m1 & w1 & Hrun & Hrows & Hpath & Hnames & Hunw).
exists m1, w1. eexists. split; [reflexivity|]. split; [exact Hrun|].
split; [exact Hrows|]. rewrite write_training_metrics_run.
rewrite Hpath, Hunw. simpl. destruct (decide (p ∈ unwritable w)); [done|].
split; [reflexivity|]. simpl. rewrite lookup_insert_eq.
unfold file_text. rewrite Hrows, Hnames. reflexivity.
Qed.

(** C8. [write_training_metrics] leaves the rows as they were, whether
  or not the file could be opened; and no method of the recorder
  removes a row: the rows before a call are a prefix of the rows
  after it. *)
Theorem C8_write_training_metrics_keeps_rows (m : obj) (w : World) :
rows (write_training_metrics (m, w)).2.1 = rows m
∧ ∀ c : MetricsCall, rows m `prefix_of` rows (metrics_call c (m, w)).2.1.
Proof.
split.
- rewrite write_training_metrics_run. by destruct (decide _).
- intros c.
  assert (rows (metrics_call c (m, w)).2.1 = rows m) as ->; [|done].
  destruct c as [| |n r| |]; cbn [metrics_call].
  + destruct (time_start_experience_collection m) as [t|] eqn:Hm.
    * by rewrite start_collection_in_progress by (rewrite Hm; eauto).
    * by rewrite start_collection_fresh by done.
  + rewrite end_experience_collection_timer_run.
    by destruct (time_start_experience_collection m).
  + unfold start_policy_update_timer. by run.
  + destruct (end_policy_update_raises m w) as (e & m' & w' & -> & ? & _). done.
  + rewrite write_training_metrics_run. by destruct (decide _).
Qed.
End Recorder.

(** ** The written file and three-decimal texts *)














Section WrittenFile.
Context {rt : PythonRuntime}.
Import TrainerMetrics.




End WrittenFile.

(** ** The trainer base class *)
Section TrainerBase.
Context {rt : PythonRuntime} {tf : TensorFlow} {cls : Trainer.TrainerClass}.
Import Trainer.

Lemma check_keys_loop (keys : list string) (o : obj) (w : World) :
for_each keys check_param_key (o, w)
= match list_find (λ k, k ∉ dom (trainer_parameters o)) keys with
  | Some (_, k) =>
      (Raise (UnityTrainerException
                ("The hyper-parameter " +:+ k +:+ " could not be found for the "
                   +:+ class_repr +:+ " trainer of brain " +:+ brain_name o +:+ ".")),
       (o, w))
  | None => (Ok tt, (o, w))
  end.
Proof.
induction keys as [|k keys IH]; [reflexivity|].
cbn [for_each list_find]. rewrite bind_run. unfold check_param_key at 1.
rewrite bind_run. cbn [self_get].
destruct (decide (k ∈ dom (trainer_parameters o))) as [Hin|Hout].
- rewrite decide_False by (intros Hn; exact (Hn Hin)).
  cbn. rewrite IH. by destruct (list_find _ keys) as [[i k']|].
- rewrite decide_True by done. reflexivity.
Qed.

(** C6. If a declared key is absent from the configuration,
  [check_param_keys] raises [UnityTrainerException] with the message
  built from an absent declared key (the first one), the class and the
  brain name; if all declared keys are present it returns. Either way
  the trainer and the world are as before. *)
Theorem C6_check_param_keys (o : obj) (w : World) :
((∃ k, k ∈ param_keys o ∧ trainer_parameters o !! k = None) →
 ∃ k, k ∈ param_keys o ∧ trainer_parameters o !! k = None
      ∧ check_param_keys (o, w)
        = (Raise (UnityTrainerException
                    ("The hyper-parameter " +:+ k +:+ " could not be found for the "
                       +:+ class_repr +:+ " trainer of brain "
                       +:+ brain_name o +:+ ".")),
           (o, w)))
∧ ((∀ k, k ∈ param_keys o → is_Some (trainer_parameters o !! k)) →
   check_param_keys (o, w) = (Ok tt, (o, w))).
Proof.
unfold check_param_keys. rewrite bind_run. cbn [self_get].
rewrite check_keys_loop. split.
- intros (k & Hk & Hnone).
  destruct (list_find _ (param_keys o)) as [[i k']|] eqn:Hfind.
  + apply list_find_Some in Hfind as (Hi & Hmiss & _).
    exists k'. split; [by eapply list_elem_of_lookup_2|].
    split; [by apply not_elem_of_dom|done].
  + apply list_find_None in Hfind. rewrite Forall_forall in Hfind.
    exfalso. apply (Hfind k Hk). by apply not_elem_of_dom.
- intros Hall.
  destruct (list_find _ (param_keys o)) as [[i k']|] eqn:Hfind; [|done].
  apply list_find_Some in Hfind as (Hi & Hmiss & _).
  exfalso. apply Hmiss, elem_of_dom, Hall. by eapply list_elem_of_lookup_2.
Qed.

(** C7. Each of the eleven operations left to concrete trainers, run as
  [Trainer] defines it, raises [UnityTrainerException] whatever the
  state and the arguments, and leaves the state as it was. *)
Theorem C7_base_operations_raise (o : obj) (w : World) (a b c : PyVal) :
parameters (o, w)
= (Raise (UnityTrainerException "The parameters property was not implemented."), (o, w))
∧ graph_scope (o, w)
  = (Raise (UnityTrainerException "The graph_scope property was not implemented."), (o, w))
∧ get_max_steps (o, w)
  = (Raise (UnityTrainerException "The get_max_steps property was not implemented."), (o, w))
∧ get_step (o, w)
  = (Raise (UnityTrainerException "The get_step property was not implemented."), (o, w))
∧ get_last_reward (o, w)
  = (Raise (UnityTrainerException "The get_last_reward property was not implemented."), (o, w))
∧ increment_step_and_update_last_reward (o, w)
  = (Raise (UnityTrainerException
              "The increment_step_and_update_last_reward method was not implemented."),
     (o, w))
∧ add_experiences a b c (o, w)
  = (Raise (UnityTrainerException "The add_experiences method was not implemented."), (o, w))
∧ process_experiences a b (o, w)
  = (Raise (UnityTrainerException "The process_experiences method was not implemented."),
     (o, w))
∧ end_episode (o, w)
  = (Raise (UnityTrainerException "The end_episode method was not implemented."), (o, w))
∧ is_ready_update (o, w)
  = (Raise (UnityTrainerException "The is_ready_update method was not implemented."), (o, w))
∧ update_policy (o, w)
  = (Raise (UnityTrainerException "The update_model method was not implemented."), (o, w)).
Proof. repeat split. Qed.

(** C9. [write_tensorboard_text] returns normally for every key, every
  dictionary, every state, every behaviour of the TensorFlow session
  and every class of the receiver. If its [try] block returned, the
  state is the one the block left; if the block raised, whatever the
  exception, the state is the one at the raise with the diagnostic
  line added to the log. *)
Theorem C9_write_tensorboard_text_never_raises
  (key : string) (input_dict : list (PyVal * PyVal)) (o : obj) (w : World) :
∃ o' w',
  write_tensorboard_text key input_dict (o, w) = (Ok tt, (o', w'))
  ∧ match write_tensorboard_text_try key input_dict (o, w) with
    | (Ok _, after) => (o', w') = after
    | (Raise _, (o1, w1)) => (o', w') = (o1, (logger INFO CANNOT_WRITE_TEXT w1).2)
    end.
Proof.
unfold write_tensorboard_text, try_except.
destruct (write_tensorboard_text_try key input_dict (o, w))
  as [[[]|e] [o1 w1]]; simpl; eauto 10.
Qed.

(** *** [write_summary] *)

Lemma set_stats_same (o : obj) : set_stats (stats o) o = o.
Proof. by destruct o. Qed.

Lemma stats_getitem_run (key : string) (o : obj) (w : World) :
stats_getitem key (o, w)
= match stats o !! key with
  | Some ℓ => (Ok (default [] (lists w !! ℓ)), (o, w))
  | None => (Raise (KeyError key), (o, w))
  end.
Proof.
unfold stats_getitem, dict_getitem. run. by destruct (stats o !! key).
Qed.

Lemma summarize_key_run (key : string) (acc : list SummaryValue)
  (o : obj) (w : World) (ℓ : positive) :
stats o !! key = Some ℓ →
summarize_key key acc (o, w)
= if decide (default [] (lists w !! ℓ) = [])
  then (Ok acc, (o, w))
  else (Ok (acc ++ [(key, VFloat (np_mean (default [] (lists w !! ℓ))))]),
        (set_stats (<[key := next_list w]> (stats o)) o, (new_list w).2)).
Proof.
intros Hkey. unfold summarize_key. rewrite bind_run, stats_getitem_run, Hkey.
destruct (default [] (lists w !! ℓ)) as [|x xs] eqn:Hs; [reflexivity|].
rewrite decide_False by done. cbn [length Nat.ltb Nat.leb].
rewrite bind_run, stats_getitem_run, Hkey, Hs. reflexivity.
Qed.

Lemma heap_wf_fresh (w : World) : heap_wf w → lists w !! next_list w = None.
Proof.
intros Hwf. destruct (lists w !! next_list w) eqn:Hl; [|done].
specialize (Hwf (next_list w) _ Hl). simpl in Hwf. lia.
Qed.

Lemma heap_wf_new_list (w : World) : heap_wf w → heap_wf (new_list w).2.
Proof.
intros Hwf ℓ x. simpl. rewrite lookup_insert.
case_decide as Heq; [subst; lia|]. intros Hl.
specialize (Hwf ℓ x Hl). simpl in Hwf. lia.
Qed.

(** The loop over the keys: what it returns and what it leaves. *)
Lemma summarize_loop (keys : list string) :
NoDup keys →
∀ (o : obj) (w : World) (acc : list SummaryValue),
  heap_wf w → stats_bound o w →
  (∀ key, key ∈ keys → is_Some (stats o !! key)) →
  ∃ st' w' new,
    for_acc keys acc summarize_key (o, w) = (Ok (acc ++ new), (set_stats st' o, w'))
    ∧ same_outside_lists w w'
    ∧ heap_wf w' ∧ stats_bound (set_stats st' o) w'
    ∧ lists w ⊆ lists w'
    ∧ (∀ key, key ∉ keys → st' !! key = stats o !! key)
    ∧ (∀ key ℓ, key ∈ keys → stats o !! key = Some ℓ →
         let samples := default [] (lists w !! ℓ) in
         if decide (samples = [])
         then st' !! key = Some ℓ
         else (key, VFloat (np_mean samples)) ∈ new
              ∧ ∃ ℓ', st' !! key = Some ℓ'
                      ∧ lists w !! ℓ' = None ∧ lists w' !! ℓ' = Some []).
Proof.
induction 1 as [|k keys Hk Hnd IH]; intros o w acc Hwf Hb Hdom.
- exists (stats o), w, []. rewrite set_stats_same, app_nil_r.
  repeat split; try done. by intros key ℓ0 Hin%elem_of_nil.
- destruct (Hdom k) as [ℓ Hℓ]; [by left|].
  cbn [for_acc]. rewrite bind_run, (summarize_key_run _ _ _ _ ℓ Hℓ).
  destruct (decide (default [] (lists w !! ℓ) = [])) as [Hempty|Hsome].
  + destruct (IH o w acc Hwf Hb)
      as (st' & w' & new & Hrun & Hsame & Hwf' & Hb' & Hsub & Hout & Hin).
    { intros key Hkey. apply Hdom. by right. }
    exists st', w', new. rewrite Hrun.
    split; [done|]. split; [done|]. split; [done|]. split; [done|].
    split; [done|]. split.
    * intros key Hkey. apply Hout. intros ?. apply Hkey. by right.
    * intros key ℓ0 Hkey Hℓ0. apply elem_of_cons in Hkey as [->|Hkey].
      -- assert (ℓ0 = ℓ) as -> by congruence. cbv zeta.
         rewrite decide_True by done. rewrite Hout by done. done.
      -- by apply Hin.
  + set (o1 := set_stats (<[k := next_list w]> (stats o)) o).
    set (w1 := (new_list w).2).
    assert (lists w ⊆ lists w1) as Hsub1.
    { simpl. apply insert_subseteq, heap_wf_fresh, Hwf. }
    destruct (IH o1 w1 (acc ++ [(k, VFloat (np_mean (default [] (lists w !! ℓ))))]))
      as (st' & w' & new & Hrun & Hsame & Hwf' & Hb' & Hsub & Hout & Hin).
    { by apply heap_wf_new_list. }
    { intros key ℓ0. simpl. rewrite !lookup_insert.
      case_decide; [intros [= <-]; case_decide; [eauto|done]|].
      intros Hkey. case_decide; [eauto|]. by eapply Hb. }
    { intros key Hkey. simpl. rewrite lookup_insert. case_decide; [eauto|].
      apply Hdom. by right. }
    exists st', w', ((k, VFloat (np_mean (default [] (lists w !! ℓ)))) :: new).
    rewrite Hrun. rewrite <- app_assoc. simpl.
    split; [done|]. split; [exact Hsame|]. split; [done|]. split; [done|].
    split; [by etrans|]. split.
    * intros key Hkey. rewrite Hout by (intros ?; apply Hkey; by right).
      simpl. rewrite lookup_insert_ne; [done|]. intros ->. apply Hkey. by left.
    * intros key ℓ0 Hkey Hℓ0. cbv zeta.
      apply elem_of_cons in Hkey as [->|Hkey].
      -- assert (ℓ0 = ℓ) as -> by congruence.
         rewrite decide_False by done. split; [by left|].
         exists (next_list w). rewrite Hout by done. simpl.
         rewrite lookup_insert_eq. split; [done|]. split; [by apply heap_wf_fresh|].
         eapply lookup_weaken; [|exact Hsub]. simpl. apply lookup_insert_eq.
      -- assert (k ≠ key) as Hne by (intros ->; done).
         assert (lists w1 !! ℓ0 = lists w !! ℓ0) as Hsame0.
         { destruct (Hb key ℓ0 Hℓ0) as [xs Hxs]. rewrite Hxs.
           eapply lookup_weaken; [exact Hxs|exact Hsub1]. }
         specialize (Hin key ℓ0 Hkey). cbv zeta in Hin. rewrite Hsame0 in Hin.
         simpl in Hin. rewrite lookup_insert_ne in Hin by done.
         specialize (Hin Hℓ0).
         destruct (decide (default [] (lists w !! ℓ0) = [])); [done|].
         destruct Hin as [Hmem (ℓ' & Hst & Hnone & Hnew)].
         split; [by right|]. exists ℓ'. split; [done|]. split; [|done].
         destruct (lists w !! ℓ') eqn:Hold; [|done].
         eapply lookup_weaken in Hold; [|exact Hsub1].
         unfold w1 in Hold. simpl in Hold. congruence.
Qed.

Lemma trigger_test (gs f : Z) :
f ≠ 0 → py_int_mod gs (VInt f) = Ok (VInt (gs mod f)).
Proof. intros Hf. unfold py_int_mod. by rewrite (proj2 (Z.eqb_neq f 0) Hf). Qed.



Lemma write_summary_enters (o : obj) (w : World) (gs f : Z)
  (k : M (obj * World) unit) :
trainer_parameters o !! "summary_freq" = Some (VInt f) → f ≠ 0 →
gs ≠ 0 → gs mod f = 0 →
(params ← self_get trainer_parameters;
 freq ← lift_result (dict_getitem params "summary_freq");
 r ← lift_result (py_int_mod gs freq);
 if py_eq_zero r && negb (gs =? 0) return M (obj * World) unit then k
 else mret tt) (o, w) = k (o, w).
Proof.
intros Hfreq Hf Hgs Hmod.
rewrite bind_run. cbn [self_get]. rewrite bind_run.
unfold dict_getitem. rewrite Hfreq. cbn [lift_result].
rewrite bind_run, trigger_test by done. cbn [lift_result].
rewrite Hmod. cbn [py_eq_zero]. rewrite (proj2 (Z.eqb_neq gs 0) Hgs).
reflexivity.
Qed.

Lemma status_run (o : obj) (w : World) (step max_steps : Z) :
overrides_steps step max_steps →
(if is_training o : bool return M (obj * World) string then
   step ← self_get_step;
   max_steps ← self_get_max_steps;
   mret (if step <=? max_steps then "Training." else "Not Training.")
 else mret "Not Training.") (o, w)
= (Ok (status_text o step max_steps), (o, w)).
Proof.
intros [Hstep Hmax]. unfold status_text.
destruct (is_training o); [|reflexivity].
rewrite bind_run, Hstep, bind_run, Hmax. reflexivity.
Qed.

(** A triggered [write_summary] on a trainer with no cumulative-reward
  entry. *)
Lemma write_summary_missing_key (o : obj) (w : World) (δ : float)
  (gs lesson f step max_steps : Z) :
trainer_parameters o !! "summary_freq" = Some (VInt f) → f ≠ 0 →
gs ≠ 0 → gs mod f = 0 →
stats o !! CUMULATIVE_REWARD = None →
is_training o = false ∨ overrides_steps step max_steps →
write_summary gs δ lesson (o, w) = (Raise (KeyError CUMULATIVE_REWARD), (o, w)).
Proof.
intros Hfreq Hf Hgs Hmod Hkey Hcls.
unfold write_summary. rewrite (write_summary_enters o w gs f _ Hfreq Hf Hgs Hmod).
rewrite bind_run. cbn [self_get]. rewrite bind_run.
destruct Hcls as [Hoff|Hov].
- rewrite Hoff. cbn [mret M_ret].
  rewrite bind_run, stats_getitem_run, Hkey. reflexivity.
- rewrite (status_run o w step max_steps Hov).
  rewrite bind_run, stats_getitem_run, Hkey. reflexivity.
Qed.

(** A triggered [write_summary] on a trainer whose class has the step
  properties and whose statistics have the cumulative-reward entry. *)
Lemma write_summary_run (o : obj) (w : World) (δ : float)
  (gs lesson f step max_steps : Z) (ℓ : positive) :
trainer_parameters o !! "summary_freq" = Some (VInt f) → f ≠ 0 →
gs ≠ 0 → gs mod f = 0 →
overrides_steps step max_steps →
stats o !! CUMULATIVE_REWARD = Some ℓ →
heap_wf w → stats_bound o w →
∃ st' w' values,
  write_summary gs δ lesson (o, w) = (Ok tt, (set_stats st' o, w'))
  ∧ log w' = log w ++ [(INFO, summary_line o w ℓ δ step max_steps)]
  ∧ written w' = written w ++ [(Scalars values, step)]
  ∧ last values = Some ("Environment/Lesson", VInt lesson)
  ∧ flushes w' = S (flushes w)
  ∧ summarized o w (set_stats st' o) w' values.
Proof.
intros Hfreq Hf Hgs Hmod Hov Hkey Hwf Hb.
unfold write_summary. rewrite (write_summary_enters o w gs f _ Hfreq Hf Hgs Hmod).
rewrite bind_run. cbn [self_get]. rewrite bind_run.
rewrite (status_run o w step max_steps Hov).
rewrite bind_run, stats_getitem_run, Hkey.
rewrite bind_run.
set (w1 := (logger INFO (summary_line o w ℓ δ step max_steps) w).2).
match goal with
| |- context [match ?branch (o, w) with _ => _ end] =>
    assert (branch (o, w) = (Ok tt, (o, w1))) as ->
end.
{ destruct Hov as [Hstep Hmax]. unfold w1, summary_line.
  destruct (default [] (lists w !! ℓ)) as [|x xs] eqn:Hrw.
  - cbn [length Nat.ltb Nat.leb]. rewrite decide_True by done.
    rewrite bind_run. cbn [self_get]. rewrite bind_run. cbn [self_get].
    rewrite bind_run, Hstep. reflexivity.
  - cbn [length Nat.ltb Nat.leb]. rewrite decide_False by done.
    rewrite bind_run, stats_getitem_run, Hkey, Hrw.
    rewrite bind_run. cbn [self_get]. rewrite bind_run. cbn [self_get].
    rewrite bind_run, Hstep, bind_run, Hmax.
    rewrite bind_run, stats_getitem_run, Hkey, Hrw. reflexivity. }
rewrite bind_run. cbn [self_get].
destruct (summarize_loop (map_to_list (stats o)).*1
            (NoDup_fst_map_to_list (stats o)) o w1 [])
  as (st' & w2 & new & Hrun & Hsame & Hwf2 & Hb2 & Hsub & Hout & Hin).
{ exact Hwf. }
{ exact Hb. }
{ intros key Hin. apply list_elem_of_fmap in Hin as [[k' ℓ'] [-> Hin]].
  apply elem_of_map_to_list in Hin. by eexists. }
rewrite bind_run, Hrun. cbn [app].
destruct Hov as [Hstep Hmax].
rewrite bind_run, Hstep. rewrite bind_run.
destruct Hsame as (Hclock & Hticks & Hlog & Hfs & Hunw & Hwritten & Hflush).
eexists st', _, (new ++ [("Environment/Lesson", VInt lesson)]).
split; [reflexivity|].
split; [simpl; by rewrite Hlog|].
split; [simpl; by rewrite Hwritten|].
split; [by rewrite last_snoc|].
split; [simpl; by rewrite Hflush|].
intros key ℓ0 Hℓ0. cbv zeta.
assert (key ∈ (map_to_list (stats o)).*1) as Hmem.
{ apply list_elem_of_fmap. exists (key, ℓ0). split; [done|].
  by apply elem_of_map_to_list. }
specialize (Hin key ℓ0 Hmem Hℓ0). cbv zeta in Hin. simpl in Hin.
destruct (decide (default [] (lists w !! ℓ0) = [])) as [He|Hne].
- split; [exact Hin|]. simpl.
  destruct (Hb key ℓ0 Hℓ0) as [xs Hxs]. rewrite Hxs.
  eapply lookup_weaken; [|exact Hsub]. exact Hxs.
- destruct Hin as [Hv (ℓ' & Hst & Hnone & Hnew)].
  split; [apply elem_of_app; by left|]. exists ℓ'. by simpl.
Qed.


(** C10 (as amended). At a non-zero multiple of a non-zero integer
  frequency: if the statistics have no cumulative-reward entry and the
  trainer is not training, or its class has the two step properties,
  [write_summary] raises [KeyError] for that key and nothing has
  changed, so no line was logged. If the entry is there, the line
  logged is [summary_line]: the no-episode line exactly when the
  entry's list is empty. *)
Theorem C10_write_summary_without_reward_entry (o : obj) (w : World) (δ : float)
  (gs lesson f step max_steps : Z) :
trainer_parameters o !! "summary_freq" = Some (VInt f) → f ≠ 0 →
gs ≠ 0 → gs mod f = 0 →
(stats o !! CUMULATIVE_REWARD = None →
 is_training o = false ∨ overrides_steps step max_steps →
 write_summary gs δ lesson (o, w) = (Raise (KeyError CUMULATIVE_REWARD), (o, w)))
∧ (∀ ℓ, stats o !! CUMULATIVE_REWARD = Some ℓ →
        overrides_steps step max_steps → heap_wf w → stats_bound o w →
        ∃ o' w',
          write_summary gs δ lesson (o, w) = (Ok tt, (o', w'))
          ∧ log w' = log w ++ [(INFO, summary_line o w ℓ δ step max_steps)]).
Proof.
intros Hfreq Hf Hgs Hmod. split.
- intros Hkey Hcls. by eapply write_summary_missing_key.
- intros ℓ Hkey Hov Hwf Hb.
  destruct (write_summary_run o w δ gs lesson f step max_steps ℓ)
    as (st' & w' & values & Hrun & Hlog & _); try done.
  by exists (set_stats st' o), w'.
Qed.
End TrainerBase.

(** On the base class, a triggered [write_summary] of a trainer that is
    training stops at the [get_step] stub. *)
Lemma write_summary_base_class {rt : PythonRuntime} (o : Trainer.obj) (w : World)
    (δ : float) (gs lesson f : Z) :
  Trainer.trainer_parameters o !! "summary_freq" = Some (VInt f) → f ≠ 0 →
  gs ≠ 0 → gs mod f = 0 →
  Trainer.is_training o = true →
  Trainer.write_summary (cls := Trainer.Base) gs δ lesson (o, w)
  = (Raise (UnityTrainerException "The get_step property was not implemented."),
     (o, w)).
Proof.
  intros Hfreq Hf Hgs Hmod Htraining. unfold Trainer.write_summary.
  rewrite (write_summary_enters o w gs f _ Hfreq Hf Hgs Hmod).
  rewrite bind_run. cbn [self_get]. rewrite bind_run, Htraining. reflexivity.
Qed.

(** ** Evaluations on the concrete runtime *)

(** One full cycle on a new recorder: [end_policy_update] raises the
    [TypeError] of [isinstance(c)], after logging, and no row exists. *)
Example one_cycle_raises :
  let run :=
    (for_each (take 3 Demo.one_cycle) (metrics_call (rt := Demo.runtime)) ;;
     TrainerMetrics.end_policy_update (rt := Demo.runtime))
      (Demo.metrics0, Demo.world0) in
  run.1 = Raise (TypeError "isinstance expected 2 arguments, got 1")
  ∧ TrainerMetrics.rows run.2.1 = []
  ∧ TrainerMetrics.last_buffer_length run.2.1 = Some 10
  ∧ TrainerMetrics.last_mean_return run.2.1 = Some (Demo.F 3 (-1))
  ∧ log run.2.2
    = [(DEBUG,
        " Policy Update Training Metrics for Brain: " +:+ NL
          +:+ TAB +:+ TAB +:+ "Time to update Policy: 1.000 s " +:+ NL
          +:+ TAB +:+ TAB +:+ "Time elapsed since training: 4.000 s " +:+ NL
          +:+ TAB +:+ TAB +:+ "Time for experience collection: 1.000 s " +:+ NL
          +:+ TAB +:+ TAB +:+ "Buffer Length: 10 " +:+ NL
          +:+ TAB +:+ TAB +:+ "Returns : 1.500" +:+ NL)].
Proof. vm_compute. repeat split. Qed.

Example recorder_file_after_one_cycle :
  ("run.csv" ∉ unwritable Demo.world0)
  ∧ ∃ m0 w0 m1 w1 w2,
      TrainerMetrics.__init__ "run.csv" "Brain" Demo.world0 = (Ok m0, w0)
      ∧ for_each Demo.one_cycle
          (λ c, attempt (metrics_call (rt := Demo.runtime) c)) (m0, w0)
        = (Ok tt, (m1, w1))
      ∧ TrainerMetrics.rows m1 = []
      ∧ TrainerMetrics.write_training_metrics (rt := Demo.runtime) (m1, w1)
        = (Ok tt, (m1, w2))
      ∧ fs w2 !! "run.csv" = Some HEADER_LINE.
Proof.
  split; [apply not_elem_of_empty|].
  apply (recorder_file_after_any_calls (rt := Demo.runtime)).
  apply not_elem_of_empty.
Qed.


(** The rows of that recorder are rows of the shape above, and their
    three-decimal texts are what [format_3f] gives for 1, 4, 1 and 1.5
    and for 0.5, 9.25, 3 and -2. *)
Example demo_rows_three_decimal :
  TrainerMetrics.rows DemoPolicy.metrics_rows
  = [three_decimal_row "Brain" (Demo.F 1 0) (Demo.F 4 0) (Demo.F 1 0) 10 (Demo.F 3 (-1));
     three_decimal_row "Brain" (Demo.F 1 (-1)) (Demo.F 37 (-2)) (Demo.F 3 0) 20
       (Demo.F (-2) 0)].
Proof. vm_compute. reflexivity. Qed.

(** A row as a working [end_policy_update] would have stored it is
    written cell by cell. *)
Example written_row :
  csv.writerow (rt := Demo.runtime)
    [VStr "Brain"; VStr "1.000"; VStr "4.000"; VStr "1.000"; VInt 10; VStr "1.500"]
  = "Brain,1.000,4.000,1.000,10,1.500" +:+ CR +:+ NL.
Proof. reflexivity. Qed.

Example check_param_keys_missing :
  Trainer.check_param_keys (cls := Demo.Concrete 0 0)
    (Demo.trainer 1000 true ∅, Demo.world0)
  = (Raise (UnityTrainerException
              ("The hyper-parameter beta could not be found for the "
                 +:+ "<class 'mlagents.trainers.ppo.trainer.PPOTrainer'>"
                 +:+ " trainer of brain Brain.")),
     (Demo.trainer 1000 true ∅, Demo.world0)).
Proof.
  unfold Trainer.check_param_keys. rewrite bind_run. cbn [self_get].
  rewrite check_keys_loop. reflexivity.
Qed.

Lemma C6_check_param_keys_witness :
  (∃ k, k ∈ Trainer.param_keys (Demo.trainer 1000 true ∅)
        ∧ Trainer.trainer_parameters (Demo.trainer 1000 true ∅) !! k = None)
  ∧ (∃ k, k ∈ Trainer.param_keys (Demo.trainer 1000 true ∅)
          ∧ Trainer.trainer_parameters (Demo.trainer 1000 true ∅) !! k = None
          ∧ Trainer.check_param_keys (cls := Demo.Concrete 0 0)
              (Demo.trainer 1000 true ∅, Demo.world0)
            = (Raise (UnityTrainerException
                        ("The hyper-parameter " +:+ k +:+ " could not be found for the "
                           +:+ "<class 'mlagents.trainers.ppo.trainer.PPOTrainer'>"
                           +:+ " trainer of brain Brain.")),
               (Demo.trainer 1000 true ∅, Demo.world0)))
  ∧ (∀ k, k ∈ Trainer.param_keys Demo.trainer_complete →
          is_Some (Trainer.trainer_parameters Demo.trainer_complete !! k))
  ∧ Trainer.check_param_keys (cls := Demo.Concrete 0 0)
      (Demo.trainer_complete, Demo.world0)
    = (Ok tt, (Demo.trainer_complete, Demo.world0)).
Proof.
  assert (∃ k, k ∈ Trainer.param_keys (Demo.trainer 1000 true ∅)
               ∧ Trainer.trainer_parameters (Demo.trainer 1000 true ∅) !! k = None)
    as Hmissing.
  { exists "beta". split; [|reflexivity]. simpl. apply list_elem_of_In. simpl. tauto. }
  assert (∀ k, k ∈ Trainer.param_keys Demo.trainer_complete →
               is_Some (Trainer.trainer_parameters Demo.trainer_complete !! k))
    as Hpresent.
  { intros k Hk. apply list_elem_of_In in Hk. simpl in Hk.
    destruct Hk as [<-|[<-|[]]]; vm_compute; eauto. }
  split; [exact Hmissing|]. split.
  - exact (proj1 (C6_check_param_keys (cls := Demo.Concrete 0 0)
                    (Demo.trainer 1000 true ∅) Demo.world0) Hmissing).
  - split; [exact Hpresent|].
    exact (proj2 (C6_check_param_keys (cls := Demo.Concrete 0 0)
                    Demo.trainer_complete Demo.world0) Hpresent).
Defined.

(** The session of an old TensorFlow raises, the base class has no
    [get_step]: either way the call returns and the line is logged.
    With both in place the summary reaches the writer. *)
Example write_tensorboard_text_swallows :
  let call tf cls :=
    Trainer.write_tensorboard_text (rt := Demo.runtime) (tf := tf) (cls := cls)
      "Hyperparameters" [(VStr "batch_size", VInt 1024)]
      (Demo.trainer 1000 true ∅, Demo.world0) in
  (call Demo.tf_old (Demo.Concrete 5 10)).1 = Ok tt
  ∧ log (call Demo.tf_old (Demo.Concrete 5 10)).2.2
    = [(INFO, Trainer.CANNOT_WRITE_TEXT)]
  ∧ (call Demo.tf_ok Trainer.Base).1 = Ok tt
  ∧ log (call Demo.tf_ok Trainer.Base).2.2 = [(INFO, Trainer.CANNOT_WRITE_TEXT)]
  ∧ written (call Demo.tf_ok Trainer.Base).2.2 = []
  ∧ (call Demo.tf_ok (Demo.Concrete 5 10)).1 = Ok tt
  ∧ log (call Demo.tf_ok (Demo.Concrete 5 10)).2.2 = []
  ∧ written (call Demo.tf_ok (Demo.Concrete 5 10)).2.2
    = [(Serialized "Hyperparametersbatch_size,1024", 5)].
Proof. vm_compute. repeat split. Qed.

(** The example of the specification: rewards [1.0, 3.0] give the mean
    2.0; the keys with samples are rebound to new lists, the key with
    none keeps its list. *)
Example write_summary_means :
  let run :=
    Trainer.write_summary (rt := Demo.runtime) (cls := Demo.Concrete 2000 50000)
      2000 (Demo.F 25 (-1)) 0
      (Demo.trainer 1000 true Demo.stats_full, Demo.world_full) in
  run.1 = Ok tt
  ∧ written run.2.2
    = [(Scalars [(Trainer.CUMULATIVE_REWARD, VFloat (Demo.F 2 0));
                 ("Losses/Value Loss", VFloat (Demo.F 1 (-1)));
                 ("Environment/Lesson", VInt 0)], 2000)]
  ∧ log run.2.2
    = [(INFO, " run1: Brain: Step: 2000. Time Elapsed: 12.500 s "
                +:+ "Mean Reward: 2.000. Std of Reward: 1.000. Training.")]
  ∧ Trainer.stats run.2.1 !! Trainer.CUMULATIVE_REWARD = Some 4%positive
  ∧ Trainer.stats run.2.1 !! "Losses/Value Loss" = Some 5%positive
  ∧ Trainer.stats run.2.1 !! "Policy/Entropy" = Some 3%positive
  ∧ lists run.2.2 !! 4%positive = Some []
  ∧ lists run.2.2 !! 5%positive = Some []
  ∧ lists run.2.2 !! 1%positive = Some [Demo.F 1 0; Demo.F 3 0].
Proof. vm_compute. repeat split. Qed.



Lemma C10_write_summary_without_reward_entry_witness :
  Trainer.trainer_parameters (Demo.trainer 1000 true Demo.stats_loss)
    !! "summary_freq" = Some (VInt 1000)
  ∧ 1000 ≠ 0 ∧ 2000 ≠ 0 ∧ 2000 mod 1000 = 0
  ∧ Trainer.stats (Demo.trainer 1000 true Demo.stats_loss)
      !! Trainer.CUMULATIVE_REWARD = None
  ∧ overrides_steps (cls := Demo.Concrete 2000 50000) 2000 50000
  ∧ Trainer.write_summary (rt := Demo.runtime) (cls := Demo.Concrete 2000 50000)
      2000 (Demo.F 25 (-1)) 0 (Demo.trainer 1000 true Demo.stats_loss, Demo.world_loss)
    = (Raise (KeyError Trainer.CUMULATIVE_REWARD),
       (Demo.trainer 1000 true Demo.stats_loss, Demo.world_loss))
  ∧ Trainer.stats (Demo.trainer 1000 true Demo.stats_full)
      !! Trainer.CUMULATIVE_REWARD = Some 1%positive
  ∧ heap_wf Demo.world_full
  ∧ stats_bound (Demo.trainer 1000 true Demo.stats_full) Demo.world_full
  ∧ ∃ o' w',
      Trainer.write_summary (rt := Demo.runtime) (cls := Demo.Concrete 2000 50000)
        2000 (Demo.F 25 (-1)) 0 (Demo.trainer 1000 true Demo.stats_full, Demo.world_full)
      = (Ok tt, (o', w'))
      ∧ log w'
        = log Demo.world_full
            ++ [(INFO, summary_line (rt := Demo.runtime)
                         (Demo.trainer 1000 true Demo.stats_full) Demo.world_full
                         1%positive (Demo.F 25 (-1)) 2000 50000)].
Proof.
  assert (heap_wf Demo.world_full) as Hwf.
  { apply (bool_decide_unpack _). vm_compute. exact I. }
  assert (stats_bound (Demo.trainer 1000 true Demo.stats_full) Demo.world_full) as Hb.
  { apply (bool_decide_unpack _). vm_compute. exact I. }
  assert (overrides_steps (cls := Demo.Concrete 2000 50000) 2000 50000) as Hov.
  { split; intros s; reflexivity. }
  split; [reflexivity|]. split; [discriminate|]. split; [discriminate|].
  split; [reflexivity|].
  split; [reflexivity|]. split; [exact Hov|]. split.
  - apply (proj1 (C10_write_summary_without_reward_entry
                    (rt := Demo.runtime) (cls := Demo.Concrete 2000 50000)
                    (Demo.trainer 1000 true Demo.stats_loss) Demo.world_loss
                    (Demo.F 25 (-1)) 2000 0 1000 2000 50000
                    eq_refl ltac:(discriminate) ltac:(discriminate) eq_refl));
      [reflexivity|right; exact Hov].
  - split; [reflexivity|]. split; [exact Hwf|]. split; [exact Hb|].
    apply (proj2 (C10_write_summary_without_reward_entry
                    (rt := Demo.runtime) (cls := Demo.Concrete 2000 50000)
                    (Demo.trainer 1000 true Demo.stats_full) Demo.world_full
                    (Demo.F 25 (-1)) 2000 0 1000 2000 50000
                    eq_refl ltac:(discriminate) ltac:(discriminate) eq_refl));
      [reflexivity|exact Hov|exact Hwf|exact Hb].
Defined.

(** C10 (the claim as it stands fails). A trainer of the base class,
    constructed for training: its statistics are empty, and a triggered
    [write_summary] raises the error of the [get_step] stub, read while
    the training status is worked out, not [KeyError]. *)
Lemma C10_counterexample :
  let o := Trainer.mk [] "Brain" (VStr "run1") (Demo.params 1000)
             "./summaries/run1"
             (TrainerMetrics.mk "./summaries/run1.csv" "Brain" TrainerMetrics.HEADER
                [] None (Demo.F 0 0) None None None None None)
             [] true ∅ in
  let w := (time Demo.world0).2 in
  Trainer.__init__ "Brain" (Demo.params 1000) true (VStr "run1") Demo.world0
  = (Ok o, w)
  ∧ Trainer.stats o = ∅
  ∧ Trainer.trainer_parameters o !! "summary_freq" = Some (VInt 1000)
  ∧ 1000 mod 1000 = 0
  ∧ Trainer.write_summary (rt := Demo.runtime) (cls := Trainer.Base)
      1000 (Demo.F 25 (-1)) 0 (o, w)
    = (Raise (UnityTrainerException "The get_step property was not implemented."),
       (o, w))
  ∧ Trainer.write_summary (rt := Demo.runtime) (cls := Trainer.Base)
      1000 (Demo.F 25 (-1)) 0 (o, w)
    ≠ (Raise (KeyError Trainer.CUMULATIVE_REWARD), (o, w)).
Proof.
  cbv zeta. split; [reflexivity|]. split; [reflexivity|].
  split; [reflexivity|]. split; [reflexivity|].
  rewrite (write_summary_base_class _ _ _ 1000 0 1000) by done.
  split; [reflexivity|]. discriminate.
Qed.

(** * Further properties *)

(** ** The metrics recorder *)
Section RecorderMore.
Context {rt : PythonRuntime}.
Import TrainerMetrics.

(** X1. For any rows whatever, on a path that can be opened,
    [write_training_metrics] returns, leaves the recorder as it was and
    the file holding the header record followed by the record of every
    row, in order; what the file held before is gone, and no other file
    and nothing else in the world has changed. *)
Theorem X1_write_training_metrics_content (m : obj) (w : World) :
  path m ∉ unwritable w →
  ∃ w',
    write_training_metrics (m, w) = (Ok tt, (m, w'))
    ∧ fs w' !! path m
      = Some (csv.writerow (VStr <$> FIELD_NAMES m)
                +:+ String.concat "" (csv.writerow <$> rows m))
    ∧ (∀ p, p ≠ path m → fs w' !! p = fs w !! p)
    ∧ clock w' = clock w ∧ ticks w' = ticks w ∧ log w' = log w
    ∧ written w' = written w ∧ flushes w' = flushes w.
Proof.
  intros Hp. rewrite write_training_metrics_run.
  destruct (decide (path m ∈ unwritable w)); [done|].
  eexists. split; [reflexivity|]. simpl.
  split; [by rewrite lookup_insert_eq|].
  split; [|done]. intros p Hne. by rewrite lookup_insert_ne.
Qed.

(** X2. Writing the metrics twice in a row is the same as writing them
    once: the second call truncates and rewrites the same text (and if
    the first call raises, the second is not reached). *)
Theorem X2_write_training_metrics_twice (m : obj) (w : World) :
  (write_training_metrics ;; write_training_metrics) (m, w)
  = write_training_metrics (m, w).
Proof.
  rewrite bind_run, write_training_metrics_run.
  destruct (decide (path m ∈ unwritable w)) as [Hin|Hout]; [done|].
  rewrite write_training_metrics_run. simpl.
  destruct (decide (path m ∈ unwritable w)); [done|].
  by rewrite insert_insert_eq.
Qed.

(** X3. The outcome of [end_policy_update] in every state. It always
    raises [TypeError]: with no update started, from [time() - None],
    having read the clock once and stored nothing; with no collection
    duration or no mean return, from the [{:0.3f}] field of the debug
    message, having stored the update duration and logged nothing;
    otherwise from [isinstance(c)], having stored the update duration
    and logged the debug line with the name, the three durations and the
    mean return in three decimals and the experience count as it is. *)
Theorem X3_end_policy_update_outcome (m : obj) (w : World) :
  end_policy_update (m, w)
  = match time_policy_update_start m with
    | None =>
        (Raise (TypeError "unsupported operand type(s) for -: 'float' and 'NoneType'"),
         (m, (time w).2))
    | Some started =>
        let update := float_sub (clock w (ticks w)) started in
        let total := float_sub (clock w (S (ticks w))) (time_training_start m) in
        let m' := set_delta_policy_update (Some update) m in
        let w' := (time (time w).2).2 in
        match delta_last_experience_collection m, last_mean_return m with
        | Some collection, Some mean_return =>
            (Raise (TypeError "isinstance expected 2 arguments, got 1"),
             (m',
              (logger DEBUG
                 (" Policy Update Training Metrics for " +:+ brain_name m +:+ ": "
                    +:+ NL +:+ TAB +:+ TAB +:+ "Time to update Policy: "
                    +:+ format_3f update +:+ " s " +:+ NL
                    +:+ TAB +:+ TAB +:+ "Time elapsed since training: "
                    +:+ format_3f total +:+ " s " +:+ NL
                    +:+ TAB +:+ TAB +:+ "Time for experience collection: "
                    +:+ format_3f collection +:+ " s " +:+ NL
                    +:+ TAB +:+ TAB +:+ "Buffer Length: "
                    +:+ py_str (of_opt_int (last_buffer_length m)) +:+ " " +:+ NL
                    +:+ TAB +:+ TAB +:+ "Returns : " +:+ format_3f mean_return +:+ NL)
                 w').2))
        | _, _ =>
            (Raise (TypeError "unsupported format string passed to NoneType.__format__"),
             (m', w'))
        end
    end.
Proof.
  unfold end_policy_update. run.
  destruct (time_policy_update_start m) as [t0|]; simpl; [|done].
  run. unfold policy_update_message.
  destruct (delta_last_experience_collection m) as [d|]; simpl; [|done].
  destruct (last_mean_return m) as [r|]; simpl; [|done].
  run. reflexivity.
Qed.

Lemma call_times_start (n : nat) (m : obj) (w : World) :
  time_start_experience_collection m = None →
  call_times (S n) start_experience_collection_timer (m, w)
  = (Ok tt, (set_time_start_experience_collection (Some (clock w (ticks w))) m,
             (time w).2)).
Proof.
  intros Hm. cbn [call_times]. rewrite bind_run, start_collection_fresh by done.
  apply call_times_fixed, start_collection_in_progress. simpl. eauto.
Qed.

(** X4. A collection is timed from the first start. From a recorder
    with no collection under way, any number of
    [start_experience_collection_timer] calls (at least one) followed by
    [end_experience_collection_timer] store as the last collection
    duration the clock reading at the end minus the reading at the first
    start, clear the marker, and read the clock exactly twice. *)
Theorem X4_collection_timed_from_first_start (n : nat) (m : obj) (w : World) :
  time_start_experience_collection m = None →
  (call_times (S n) start_experience_collection_timer ;;
   end_experience_collection_timer) (m, w)
  = (Ok tt,
     (set_delta_last_experience_collection
        (Some (float_sub (clock w (S (ticks w))) (clock w (ticks w)))) m,
      (time (time w).2).2)).
Proof.
  intros Hm. rewrite bind_run, call_times_start by done.
  rewrite end_experience_collection_timer_run. simpl.
  destruct m; simpl in *; by subst.
Qed.

Lemma metrics_call_constants (c : MetricsCall) (m : obj) (w : World) :
  ∃ m' w',
    attempt (metrics_call c) (m, w) = (Ok tt, (m', w'))
    ∧ path m' = path m ∧ brain_name m' = brain_name m
    ∧ FIELD_NAMES m' = FIELD_NAMES m
    ∧ time_training_start m' = time_training_start m.
Proof.
  destruct c as [| |n r| |]; cbn [metrics_call]; unfold attempt, try_except.
  - destruct (time_start_experience_collection m) as [t|] eqn:Hm.
    + rewrite start_collection_in_progress by (rewrite Hm; eauto). eauto 10.
    + rewrite start_collection_fresh by done. eauto 10.
  - rewrite end_experience_collection_timer_run.
    destruct (time_start_experience_collection m); eauto 10.
  - unfold start_policy_update_timer. run. eauto 10.
  - unfold end_policy_update. run.
    destruct (time_policy_update_start m) as [t0|]; simpl; [|by eauto 10].
    run. unfold policy_update_message.
    destruct (delta_last_experience_collection m) as [d|]; simpl; [|by eauto 10].
    destruct (last_mean_return m) as [r|]; simpl; [|by eauto 10].
    run. eauto 10.
  - rewrite write_training_metrics_run. destruct (decide _); eauto 10.
Qed.

(** X5. What is fixed at construction stays fixed. Whatever methods of
    the recorder are called, in whatever order and however they end,
    the path, the brain name, the header and the training-start time are
    those the recorder was created with. *)
Theorem X5_recorder_constants (calls : list MetricsCall) (m : obj) (w : World) :
  ∃ m' w',
    for_each calls (λ c, attempt (metrics_call c)) (m, w) = (Ok tt, (m', w'))
    ∧ path m' = path m ∧ brain_name m' = brain_name m
    ∧ FIELD_NAMES m' = FIELD_NAMES m
    ∧ time_training_start m' = time_training_start m.
Proof.
  revert m w. induction calls as [|c calls IH]; intros m w; [by exists m, w|].
  destruct (metrics_call_constants c m w) as (m1 & w1 & Hrun & ? & ? & ? & ?).
  destruct (IH m1 w1) as (m2 & w2 & Hrun' & ? & ? & ? & ?).
  exists m2, w2. cbn [for_each]. rewrite bind_run, Hrun, Hrun'.
  repeat split; congruence.
Qed.
End RecorderMore.

(** ** The trainer base class: the summary, exactly *)
Section SummaryMore.
Context {rt : PythonRuntime} {cls : Trainer.TrainerClass}.
Import Trainer.

Lemma summary_value_same (w w1 : World) (items : list (string * positive)) :
  (∀ item, item ∈ items → lists w1 !! item.2 = lists w !! item.2) →
  omap (summary_value w1) items = omap (summary_value w) items.
Proof.
  induction items as [|item items IH]; intros Hsame; [done|].
  cbn [omap list_omap].
  assert (summary_value w1 item = summary_value w item) as ->.
  { unfold summary_value. rewrite (Hsame item); [done|by left]. }
  rewrite IH; [done|]. intros item' Hin. apply Hsame. by right.
Qed.

Lemma summary_value_none (w : World) (items : list (string * positive)) :
  (∀ item, item ∈ items → lists w !! item.2 = Some []) →
  omap (summary_value w) items = [].
Proof.
  induction items as [|item items IH]; intros Hempty; [done|].
  cbn [omap list_omap].
  assert (summary_value w item = None) as ->.
  { unfold summary_value. rewrite (Hempty item); [done|by left]. }
  apply IH. intros item' Hin. apply Hempty. by right.
Qed.

(** The loop over the keys, with the values it collects spelled out. *)
Lemma summarize_loop_exact (items : list (string * positive)) :
  NoDup items.*1 →
  ∀ (o : obj) (w : World) (acc : list SummaryValue),
    heap_wf w → stats_bound o w →
    (∀ item, item ∈ items → stats o !! item.1 = Some item.2) →
    ∃ st' w',
      for_acc items.*1 acc summarize_key (o, w)
      = (Ok (acc ++ omap (summary_value w) items), (set_stats st' o, w'))
      ∧ same_outside_lists w w'
      ∧ heap_wf w' ∧ stats_bound (set_stats st' o) w'
      ∧ lists w ⊆ lists w'
      ∧ dom st' = dom (stats o)
      ∧ (∀ key, key ∉ items.*1 → st' !! key = stats o !! key)
      ∧ (∀ key ℓ', key ∈ items.*1 → st' !! key = Some ℓ' → lists w' !! ℓ' = Some []).
Proof.
  induction items as [|[k ℓ] items IH]; intros Hnd o w acc Hwf Hb Hitems.
  - exists (stats o), w. rewrite set_stats_same, app_nil_r.
    repeat split; try done. by intros key ℓ' Hin%elem_of_nil.
  - apply NoDup_cons in Hnd as [Hk Hnd].
    assert (stats o !! k = Some ℓ) as Hℓ by (apply (Hitems (k, ℓ)); by left).
    cbn [fmap list_fmap fst for_acc].
    rewrite bind_run, (summarize_key_run _ _ _ _ ℓ Hℓ).
    cbn [omap list_omap]. unfold summary_value at 1. cbn [fst snd].
    destruct (decide (default [] (lists w !! ℓ) = [])) as [Hempty|Hsome].
    + destruct (IH Hnd o w acc Hwf Hb)
        as (st' & w' & Hrun & Hsame & Hwf' & Hb' & Hsub & Hdom & Hout & Hin).
      { intros item Hitem. apply Hitems. by right. }
      exists st', w'. rewrite Hrun.
      split; [done|]. split; [done|]. split; [done|]. split; [done|].
      split; [done|]. split; [done|]. split.
      * intros key Hkey. apply Hout. intros ?. apply Hkey. by right.
      * intros key ℓ' Hkey Hst. apply elem_of_cons in Hkey as [->|Hkey].
        -- rewrite Hout, Hℓ in Hst by done. injection Hst as <-.
           destruct (Hb k ℓ Hℓ) as [xs Hxs]. rewrite Hxs in Hempty.
           simpl in Hempty. subst xs. by eapply lookup_weaken.
        -- by eapply Hin.
    + set (o1 := set_stats (<[k := next_list w]> (stats o)) o).
      set (w1 := (new_list w).2).
      assert (lists w ⊆ lists w1) as Hsub1.
      { simpl. apply insert_subseteq, heap_wf_fresh, Hwf. }
      destruct (IH Hnd o1 w1 (acc ++ [(k, VFloat (np_mean (default [] (lists w !! ℓ))))]))
        as (st' & w' & Hrun & Hsame & Hwf' & Hb' & Hsub & Hdom & Hout & Hin).
      { by apply heap_wf_new_list. }
      { intros key ℓ0. simpl. rewrite !lookup_insert.
        case_decide; [intros [= <-]; case_decide; [eauto|done]|].
        intros Hkey. case_decide; [eauto|]. by eapply Hb. }
      { intros [k' ℓ'] Hitem. simpl. rewrite lookup_insert_ne.
        - apply (Hitems (k', ℓ')). by right.
        - intros ->. apply Hk. apply list_elem_of_fmap. by exists (k', ℓ'). }
      exists st', w'. rewrite Hrun.
      rewrite (summary_value_same w w1 items).
      2:{ intros [k' ℓ'] Hitem. simpl.
          assert (stats o !! k' = Some ℓ') as Hk' by (apply (Hitems (k', ℓ')); by right).
          destruct (Hb k' ℓ' Hk') as [xs Hxs]. rewrite Hxs.
          rewrite lookup_insert_ne; [done|]. intros <-.
          by rewrite heap_wf_fresh in Hxs. }
      rewrite <- app_assoc. simpl.
      split; [done|]. split; [exact Hsame|]. split; [done|]. split; [done|].
      split; [by etrans|]. split.
      { rewrite Hdom. simpl. apply dom_insert_lookup_L. eauto. }
      split.
      * intros key Hkey. rewrite Hout by (intros ?; apply Hkey; by right).
        simpl. rewrite lookup_insert_ne; [done|]. intros ->. apply Hkey. by left.
      * intros key ℓ' Hkey Hst. apply elem_of_cons in Hkey as [->|Hkey].
        -- rewrite Hout in Hst by done. simpl in Hst.
           rewrite lookup_insert_eq in Hst. injection Hst as <-.
           eapply lookup_weaken; [|exact Hsub]. simpl. apply lookup_insert_eq.
        -- by eapply Hin.
Qed.

(** A triggered [write_summary] with everything in place: the state it
    leaves and what it keeps. *)
Lemma write_summary_exact (o : obj) (w : World) (δ : float)
    (gs lesson f step max_steps : Z) (ℓ : positive) :
  trainer_parameters o !! "summary_freq" = Some (VInt f) → f ≠ 0 →
  gs ≠ 0 → gs mod f = 0 →
  overrides_steps step max_steps →
  stats o !! CUMULATIVE_REWARD = Some ℓ →
  heap_wf w → stats_bound o w →
  ∃ st' w',
    write_summary gs δ lesson (o, w) = (Ok tt, (set_stats st' o, w'))
    ∧ written w'
      = written w
          ++ [(Scalars (summary_values o w ++ [("Environment/Lesson", VInt lesson)]),
               step)]
    ∧ log w' = log w ++ [(INFO, summary_line o w ℓ δ step max_steps)]
    ∧ flushes w' = S (flushes w)
    ∧ clock w' = clock w ∧ ticks w' = ticks w
    ∧ fs w' = fs w ∧ unwritable w' = unwritable w
    ∧ heap_wf w' ∧ stats_bound (set_stats st' o) w'
    ∧ lists w ⊆ lists w'
    ∧ dom st' = dom (stats o)
    ∧ (∀ key ℓ', st' !! key = Some ℓ' → lists w' !! ℓ' = Some []).
Proof.
  intros Hfreq Hf Hgs Hmod Hov Hkey Hwf Hb.
  unfold write_summary. rewrite (write_summary_enters o w gs f _ Hfreq Hf Hgs Hmod).
  rewrite bind_run. cbn [self_get]. rewrite bind_run.
  rewrite (status_run o w step max_steps Hov).
  rewrite bind_run, stats_getitem_run, Hkey.
  rewrite bind_run.
  set (w1 := (logger INFO (summary_line o w ℓ δ step max_steps) w).2).
  match goal with
  | |- context [match ?branch (o, w) with _ => _ end] =>
      assert (branch (o, w) = (Ok tt, (o, w1))) as ->
  end.
  { destruct Hov as [Hstep Hmax]. unfold w1, summary_line.
    destruct (default [] (lists w !! ℓ)) as [|x xs] eqn:Hrw.
    - cbn [length Nat.ltb Nat.leb]. rewrite decide_True by done.
      rewrite bind_run. cbn [self_get]. rewrite bind_run. cbn [self_get].
      rewrite bind_run, Hstep. reflexivity.
    - cbn [length Nat.ltb Nat.leb]. rewrite decide_False by done.
      rewrite bind_run, stats_getitem_run, Hkey, Hrw.
      rewrite bind_run. cbn [self_get]. rewrite bind_run. cbn [self_get].
      rewrite bind_run, Hstep, bind_run, Hmax.
      rewrite bind_run, stats_getitem_run, Hkey, Hrw. reflexivity. }
  rewrite bind_run. cbn [self_get].
  destruct (summarize_loop_exact (map_to_list (stats o))
              (NoDup_fst_map_to_list (stats o)) o w1 [])
    as (st' & w2 & Hrun & Hsame & Hwf2 & Hb2 & Hsub & Hdom & Hout & Hin).
  { exact Hwf. }
  { exact Hb. }
  { intros [k' ℓ'] Hitem. by apply elem_of_map_to_list in Hitem. }
  rewrite bind_run, Hrun. cbn [app].
  destruct Hov as [Hstep Hmax].
  rewrite bind_run, Hstep. rewrite bind_run.
  destruct Hsame as (Hclock & Hticks & Hlog & Hfs & Hunw & Hwritten & Hflush).
  exists st'. eexists. split; [reflexivity|]. simpl.
  split; [by rewrite Hwritten|]. split; [by rewrite Hlog|].
  split; [by rewrite Hflush|].
  split; [done|]. split; [done|]. split; [done|]. split; [done|].
  split; [done|]. split; [done|]. split; [done|]. split; [done|].
  intros key ℓ' Hst. eapply Hin; [|exact Hst].
  assert (key ∈ dom (stats o)) as Hd.
  { rewrite <- Hdom. apply elem_of_dom. eauto. }
  apply elem_of_dom in Hd as [ℓ0 Hℓ0].
  apply list_elem_of_fmap. exists (key, ℓ0). split; [done|].
  by apply elem_of_map_to_list.
Qed.
End SummaryMore.

(** ** The trainer base class: the policy, the constructor, the checks *)
Section TrainerMore.
Context {rt : PythonRuntime} {tf : TensorFlow} {cls : Trainer.TrainerClass}
        {pol : TrainerPolicy.PolicyAttribute}.
Import Trainer TrainerPolicy.

(** The trainer after its recorder's collection timer was started at
    world [w]. *)
Lemma start_timer_on_trainer (o : obj) (w : World) :
  ∃ w',
    on_trainer_metrics TrainerMetrics.start_experience_collection_timer (o, w)
    = (Ok tt,
       (set_trainer_metrics
          (TrainerMetrics.set_time_start_experience_collection
             (Some (default (clock w (ticks w))
                      (TrainerMetrics.time_start_experience_collection
                         (trainer_metrics o))))
             (trainer_metrics o)) o,
        w')).
Proof.
  unfold on_trainer_metrics.
  destruct (TrainerMetrics.time_start_experience_collection (trainer_metrics o))
    as [t|] eqn:Hm.
  - rewrite start_collection_in_progress by (rewrite Hm; eauto). exists w.
    simpl. do 2 f_equal. destruct o as [? ? ? ? ? tm ? ? ?]. simpl in *.
    destruct tm; simpl in *. by subst.
  - rewrite start_collection_fresh by done. eauto.
Qed.

Lemma get_action_caught (curr_info : PyVal) (o : obj) (w : World) :
  ∃ w',
    ignore (get_action curr_info) (o, w)
    = (Ok tt,
       (set_trainer_metrics
          (TrainerMetrics.set_time_start_experience_collection
             (Some (default (clock w (ticks w))
                      (TrainerMetrics.time_start_experience_collection
                         (trainer_metrics o))))
             (trainer_metrics o)) o,
        w')).
Proof.
  destruct (start_timer_on_trainer o w) as [w1 Hstart].
  unfold ignore, try_except, get_action. rewrite !bind_run, Hstart.
  destruct self_policy as [p|]; [|by eexists].
  unfold world. destruct (policy_get_action p curr_info w1) as [[v|e] w2]; by eexists.
Qed.

(** X6. [get_action] starts the collection timer before it turns to the
    policy, and a run of calls keeps the first start. After one or more
    [get_action] calls, whatever the policy does or raises and even if
    no policy is bound, the marker is the clock reading at the first
    call (or the marker that was already there) and nothing else in the
    trainer has changed. *)
Theorem X6_get_action_keeps_first_start
    (curr_info : PyVal) (more : list PyVal) (o : obj) (w : World) :
  ∃ w',
    for_each (curr_info :: more) (λ c, ignore (get_action c)) (o, w)
    = (Ok tt,
       (set_trainer_metrics
          (TrainerMetrics.set_time_start_experience_collection
             (Some (default (clock w (ticks w))
                      (TrainerMetrics.time_start_experience_collection
                         (trainer_metrics o))))
             (trainer_metrics o)) o,
        w')).
Proof.
  cbn [for_each]. destruct (get_action_caught curr_info o w) as [w1 Hfirst].
  rewrite bind_run, Hfirst. clear Hfirst.
  set (o1 := set_trainer_metrics _ o). generalize w1. clear w1.
  induction more as [|c more IH]; intros w1; [by eexists|].
  cbn [for_each]. destruct (get_action_caught c o1 w1) as [w2 Hnext].
  rewrite bind_run, Hnext. destruct (IH w2) as [w3 Hrest]. exists w3.
  rewrite <- Hrest. reflexivity.
Qed.

Lemma check_passes_prefix (before : list string) (rest : list string)
    (o : obj) (w : World) :
  (∀ k, k ∈ before → is_Some (trainer_parameters o !! k)) →
  for_each (before ++ rest) check_param_key (o, w)
  = for_each rest check_param_key (o, w).
Proof.
  induction before as [|k before IH]; intros Hall; [done|].
  cbn [app for_each]. rewrite bind_run. unfold check_param_key at 1.
  rewrite bind_run. cbn [self_get].
  rewrite decide_True by (apply elem_of_dom, Hall; by left).
  cbn. apply IH. intros k' Hk'. apply Hall. by right.
Qed.

(** X7. [check_param_keys] reports the first declared key that is
    missing: if every key declared before [k] is in the configuration
    and [k] is not, the error names [k], whatever is declared after it;
    trainer and world are as before. *)
Theorem X7_check_param_keys_first_missing
    (before after : list string) (k : string) (o : obj) (w : World) :
  param_keys o = before ++ k :: after →
  (∀ k', k' ∈ before → is_Some (trainer_parameters o !! k')) →
  trainer_parameters o !! k = None →
  check_param_keys (o, w)
  = (Raise (UnityTrainerException
              ("The hyper-parameter " +:+ k +:+ " could not be found for the "
                 +:+ class_repr +:+ " trainer of brain " +:+ brain_name o +:+ ".")),
     (o, w)).
Proof.
  intros Hkeys Hbefore Hk. unfold check_param_keys.
  rewrite bind_run. cbn [self_get]. rewrite Hkeys, check_passes_prefix by done.
  cbn [for_each]. rewrite bind_run. unfold check_param_key at 1.
  rewrite bind_run. cbn [self_get].
  rewrite decide_False by (by apply not_elem_of_dom). reflexivity.
Qed.



(** X9. [write_summary] does nothing at a step that is not a multiple
    of a non-zero integer [summary_freq]. *)
Theorem X9_write_summary_between_multiples (o : obj) (w : World) (δ : float)
    (gs lesson f : Z) :
  trainer_parameters o !! "summary_freq" = Some (VInt f) → f ≠ 0 →
  gs mod f ≠ 0 →
  write_summary gs δ lesson (o, w) = (Ok tt, (o, w)).
Proof.
  intros Hfreq Hf Hmod. unfold write_summary.
  rewrite bind_run. cbn [self_get]. rewrite bind_run.
  unfold dict_getitem. rewrite Hfreq. cbn [lift_result].
  rewrite bind_run, trigger_test by done. cbn [lift_result py_eq_zero].
  by rewrite (proj2 (Z.eqb_neq (gs mod f) 0) Hmod).
Qed.

(** X10. [write_summary] needs [summary_freq] at every step, step 0
    included: without the key it raises [KeyError], with a string or
    [None] for it it raises [TypeError]; trainer and world are as
    before. *)
Theorem X10_write_summary_bad_frequency (o : obj) (w : World) (δ : float)
    (gs lesson : Z) :
  (trainer_parameters o !! "summary_freq" = None →
   write_summary gs δ lesson (o, w) = (Raise (KeyError "summary_freq"), (o, w)))
  ∧ (∀ v, trainer_parameters o !! "summary_freq" = Some v →
          v = VNone ∨ (∃ s, v = VStr s) →
          ∃ msg, write_summary gs δ lesson (o, w) = (Raise (TypeError msg), (o, w))).
Proof.
  split.
  - intros Hfreq. unfold write_summary.
    rewrite bind_run. cbn [self_get]. rewrite bind_run.
    unfold dict_getitem. by rewrite Hfreq.
  - intros v Hfreq Hv. unfold write_summary.
    rewrite bind_run. cbn [self_get]. rewrite bind_run.
    unfold dict_getitem. rewrite Hfreq. cbn [lift_result]. rewrite bind_run.
    destruct Hv as [->|[s ->]]; by eexists.
Qed.

(** X11. What a triggered [write_summary] does when everything is in
    place. It hands the writer exactly one summary, tagged with the
    current step, whose values are the means of the keys that have
    samples, one value per such key and none for a key without samples,
    in some order, followed by the lesson number; it flushes once and
    logs one line. The clock and the files are untouched and the
    trainer differs in its statistics only. The order of the means is
    left open: the source visits the keys in the dict's insertion
    order, which the statistics map does not record. *)
Theorem X11_write_summary_effects (o : obj) (w : World) (δ : float)
    (gs lesson f step max_steps : Z) :
  trainer_parameters o !! "summary_freq" = Some (VInt f) → f ≠ 0 →
  gs ≠ 0 → gs mod f = 0 →
  overrides_steps step max_steps →
  is_Some (stats o !! CUMULATIVE_REWARD) →
  heap_wf w → stats_bound o w →
  ∃ st' w' means,
    write_summary gs δ lesson (o, w) = (Ok tt, (set_stats st' o, w'))
    ∧ means ≡ₚ summary_values o w
    ∧ written w'
      = written w
          ++ [(Scalars (means ++ [("Environment/Lesson", VInt lesson)]), step)]
    ∧ flushes w' = S (flushes w)
    ∧ length (log w') = S (length (log w))
    ∧ clock w' = clock w ∧ ticks w' = ticks w
    ∧ fs w' = fs w ∧ unwritable w' = unwritable w.
Proof.
  intros Hfreq Hf Hgs Hmod Hov [ℓ Hkey] Hwf Hb.
  destruct (write_summary_exact o w δ gs lesson f step max_steps ℓ)
    as (st' & w' & Hrun & Hwritten & Hlog & Hflush & Hc & Ht & Hfs & Hu & _);
    try done.
  exists st', w', (summary_values o w). rewrite Hlog, length_app. simpl.
  repeat split; try done. lia.
Qed.

(** X12. What a triggered [write_summary] keeps. The statistics have
    the same keys afterwards, every key is bound to an empty list, the
    list objects that existed still exist with the samples they had
    (nothing is cleared in place), and the allocator and the statistics
    are well formed again. *)
Theorem X12_write_summary_keeps (o : obj) (w : World) (δ : float)
    (gs lesson f step max_steps : Z) :
  trainer_parameters o !! "summary_freq" = Some (VInt f) → f ≠ 0 →
  gs ≠ 0 → gs mod f = 0 →
  overrides_steps step max_steps →
  is_Some (stats o !! CUMULATIVE_REWARD) →
  heap_wf w → stats_bound o w →
  ∃ o' w',
    write_summary gs δ lesson (o, w) = (Ok tt, (o', w'))
    ∧ dom (stats o') = dom (stats o)
    ∧ (∀ key ℓ, stats o' !! key = Some ℓ → lists w' !! ℓ = Some [])
    ∧ (∀ ℓ samples, lists w !! ℓ = Some samples → lists w' !! ℓ = Some samples)
    ∧ heap_wf w' ∧ stats_bound o' w'.
Proof.
  intros Hfreq Hf Hgs Hmod Hov [ℓ Hkey] Hwf Hb.
  destruct (write_summary_exact o w δ gs lesson f step max_steps ℓ)
    as (st' & w' & Hrun & _ & _ & _ & _ & _ & _ & _ & Hwf' & Hb' & Hsub & Hdom & Hall);
    try done.
  exists (set_stats st' o), w'.
  split; [done|]. split; [done|]. split; [done|]. split; [|done].
  intros ℓ0 samples Hl. by eapply lookup_weaken.
Qed.

(** X13. The statistics are consumed by a summary. Of two triggered
    [write_summary] calls in a row, the second finds no sample: it logs
    the no-episode line and its summary holds the lesson number and
    nothing else. *)
Theorem X13_write_summary_twice (o : obj) (w : World) (δ δ' : float)
    (gs gs' lesson lesson' f step max_steps : Z) :
  trainer_parameters o !! "summary_freq" = Some (VInt f) → f ≠ 0 →
  gs ≠ 0 → gs mod f = 0 → gs' ≠ 0 → gs' mod f = 0 →
  overrides_steps step max_steps →
  is_Some (stats o !! CUMULATIVE_REWARD) →
  heap_wf w → stats_bound o w →
  ∃ o1 w1 o2 w2,
    write_summary gs δ lesson (o, w) = (Ok tt, (o1, w1))
    ∧ write_summary gs' δ' lesson' (o1, w1) = (Ok tt, (o2, w2))
    ∧ written w2
      = written w1 ++ [(Scalars [("Environment/Lesson", VInt lesson')], step)]
    ∧ log w2
      = log w1
          ++ [(INFO, no_episode_line (run_id o) (brain_name o) step
                       (status_text o step max_steps))].
Proof.
  intros Hfreq Hf Hgs Hmod Hgs' Hmod' Hov [ℓ Hkey] Hwf Hb.
  destruct (write_summary_exact o w δ gs lesson f step max_steps ℓ)
    as (st1 & w1 & Hrun1 & _ & _ & _ & _ & _ & _ & _ & Hwf1 & Hb1 & _ & Hdom1 & Hall1);
    try done.
  assert (is_Some (st1 !! CUMULATIVE_REWARD)) as [ℓ1 Hkey1].
  { apply elem_of_dom. rewrite Hdom1. apply elem_of_dom. eauto. }
  destruct (write_summary_exact (set_stats st1 o) w1 δ' gs' lesson' f step max_steps ℓ1)
    as (st2 & w2 & Hrun2 & Hwritten2 & Hlog2 & _); try done.
  exists (set_stats st1 o), w1, (set_stats st2 (set_stats st1 o)), w2.
  split; [done|]. split; [done|]. split.
  - rewrite Hwritten2. unfold summary_values.
    rewrite summary_value_none; [done|].
    intros [k ℓ'] Hitem. apply elem_of_map_to_list in Hitem. simpl in *.
    by eapply Hall1.
  - rewrite Hlog2. unfold summary_line.
    rewrite (Hall1 _ _ Hkey1). reflexivity.
Qed.

(** X14. When the session and [get_step] return, [write_tensorboard_text]
    hands the writer the serialized summary the session produced for
    the table of [str(key), str(value)] rows, tagged with the current
    step, and logs nothing of its own. *)
Theorem X14_write_tensorboard_text_written
    (key summary : string) (input_dict : list (PyVal * PyVal))
    (o : obj) (w w1 : World) (step max_steps : Z) :
  session_run_text key
    ((λ item : PyVal * PyVal, [py_str item.1; py_str item.2]) <$> input_dict) w
  = (Ok summary, w1) →
  overrides_steps step max_steps →
  write_tensorboard_text key input_dict (o, w)
  = (Ok tt, (o, (add_summary (Serialized summary) step w1).2)).
Proof.
  intros Hsession [Hstep _].
  unfold write_tensorboard_text, try_except, write_tensorboard_text_try.
  rewrite bind_run. unfold world at 1. rewrite Hsession.
  rewrite bind_run, Hstep. reflexivity.
Qed.
End TrainerMore.

(** ** The base class itself, and the trainer without a policy *)

(** X15. On the base class a triggered [write_summary] never gets
    through and never changes anything: it raises [KeyError] when the
    trainer is not training and has no cumulative-reward entry, and the
    error of the [get_step] stub in every other case. *)
Theorem X15_write_summary_base_class_raises {rt : PythonRuntime}
    (o : Trainer.obj) (w : World) (δ : float) (gs lesson f : Z) :
  Trainer.trainer_parameters o !! "summary_freq" = Some (VInt f) → f ≠ 0 →
  gs ≠ 0 → gs mod f = 0 →
  Trainer.write_summary (cls := Trainer.Base) gs δ lesson (o, w)
  = (Raise
       match Trainer.is_training o, Trainer.stats o !! Trainer.CUMULATIVE_REWARD with
       | false, None => KeyError Trainer.CUMULATIVE_REWARD
       | _, _ => UnityTrainerException "The get_step property was not implemented."
       end,
     (o, w)).
Proof.
  intros Hfreq Hf Hgs Hmod.
  destruct (Trainer.is_training o) eqn:Htraining.
  { by apply (write_summary_base_class o w δ gs lesson f). }
  destruct (Trainer.stats o !! Trainer.CUMULATIVE_REWARD) as [ℓ|] eqn:Hkey.
  2:{ apply (write_summary_missing_key (cls := Trainer.Base)
               o w δ gs lesson f 0 0); auto. }
  unfold Trainer.write_summary.
  rewrite (write_summary_enters o w gs f _ Hfreq Hf Hgs Hmod).
  rewrite bind_run. cbn [self_get]. rewrite bind_run, Htraining.
  cbn [mret M_ret]. rewrite bind_run, stats_getitem_run, Hkey.
  rewrite bind_run.
  destruct (default [] (lists w !! ℓ)) as [|x xs] eqn:Hrw.
  - cbn [length Nat.ltb Nat.leb].
    rewrite bind_run. cbn [self_get]. rewrite bind_run. cbn [self_get].
    rewrite bind_run. reflexivity.
  - cbn [length Nat.ltb Nat.leb].
    rewrite bind_run, stats_getitem_run, Hkey, Hrw.
    rewrite bind_run. cbn [self_get]. rewrite bind_run. cbn [self_get].
    rewrite bind_run. reflexivity.
Qed.

(** X16. On the base class [write_tensorboard_text] never writes a
    summary: whatever the session does, returns or raises, the call
    returns with the trainer as it was and the world as the session
    left it plus the diagnostic line. *)
Theorem X16_write_tensorboard_text_base_class
    {rt : PythonRuntime} {tf : TensorFlow}
    (key : string) (input_dict : list (PyVal * PyVal))
    (o : Trainer.obj) (w : World) :
  Trainer.write_tensorboard_text (cls := Trainer.Base) key input_dict (o, w)
  = (Ok tt,
     (o,
      (logger INFO Trainer.CANNOT_WRITE_TEXT
         (session_run_text key
            ((λ item : PyVal * PyVal, [py_str item.1; py_str item.2]) <$> input_dict)
            w).2).2)).
Proof.
  unfold Trainer.write_tensorboard_text, try_except, Trainer.write_tensorboard_text_try.
  rewrite bind_run. unfold world at 1.
  destruct (session_run_text _ _ w) as [[s|e] w1]; reflexivity.
Qed.

(** X17. Without a policy (the state [Trainer.__init__] leaves) the
    three delegating methods raise [AttributeError]. [save_model] and
    [export_model] change nothing, and [save_model] does not get as far
    as reading [get_step]; [get_action] has started the collection
    timer by then. *)
Theorem X17_no_policy {cls : Trainer.TrainerClass}
    (curr_info : PyVal) (o : Trainer.obj) (w : World) :
  TrainerPolicy.save_model (pol := TrainerPolicy.Unset) (o, w)
  = (Raise (TrainerPolicy.no_attribute "save_model"), (o, w))
  ∧ TrainerPolicy.export_model (pol := TrainerPolicy.Unset) (o, w)
    = (Raise (TrainerPolicy.no_attribute "export_model"), (o, w))
  ∧ TrainerPolicy.get_action (pol := TrainerPolicy.Unset) curr_info (o, w)
    = (Raise (TrainerPolicy.no_attribute "get_action"),
       (Trainer.set_trainer_metrics
          (TrainerMetrics.set_time_start_experience_collection
             (Some (default (clock w (ticks w))
                      (TrainerMetrics.time_start_experience_collection
                         (Trainer.trainer_metrics o))))
             (Trainer.trainer_metrics o)) o,
        match TrainerMetrics.time_start_experience_collection
                (Trainer.trainer_metrics o) with
        | Some _ => w
        | None => (time w).2
        end)).
Proof.
  split; [reflexivity|]. split; [reflexivity|].
  unfold TrainerPolicy.get_action. rewrite bind_run.
  unfold Trainer.on_trainer_metrics.
  destruct (TrainerMetrics.time_start_experience_collection (Trainer.trainer_metrics o))
    as [t|] eqn:Hm.
  - rewrite start_collection_in_progress by (rewrite Hm; eauto). simpl.
    do 3 f_equal. destruct o as [? ? ? ? ? tm ? ? ?]. simpl in *.
    destruct tm; simpl in *. by subst.
  - rewrite start_collection_fresh by done. reflexivity.
Qed.

(** X18. With a policy bound. [save_model] on the base class raises the
    error of the [get_step] stub and the policy is not called; on a
    class with the step properties the policy's [save_model] is called
    with the current step. [save_model] and [export_model] return
    [None] whatever the policy returns, raise what it raises, and leave
    the trainer as it was. *)
Theorem X18_save_and_export_model {cls : Trainer.TrainerClass}
    (p : Policy) (o : Trainer.obj) (w : World) (step max_steps : Z) :
  TrainerPolicy.save_model (cls := Trainer.Base)
    (pol := {| TrainerPolicy.self_policy := Some p |}) (o, w)
  = (Raise (UnityTrainerException "The get_step property was not implemented."),
     (o, w))
  ∧ (overrides_steps step max_steps →
     TrainerPolicy.save_model (pol := {| TrainerPolicy.self_policy := Some p |}) (o, w)
     = (match (policy_save_model p step w).1 with
        | Ok _ => Ok tt
        | Raise e => Raise e
        end,
        (o, (policy_save_model p step w).2)))
  ∧ TrainerPolicy.export_model (pol := {| TrainerPolicy.self_policy := Some p |}) (o, w)
    = (match (policy_export_model p w).1 with
       | Ok _ => Ok tt
       | Raise e => Raise e
       end,
       (o, (policy_export_model p w).2)).
Proof.
  split; [reflexivity|]. split.
  - intros [Hstep _]. unfold TrainerPolicy.save_model. cbn [TrainerPolicy.self_policy].
    rewrite bind_run, Hstep, bind_run. unfold world.
    by destruct (policy_save_model p step w) as [[v|e] w1].
  - unfold TrainerPolicy.export_model. cbn [TrainerPolicy.self_policy].
    rewrite bind_run. unfold world.
    by destruct (policy_export_model p w) as [[v|e] w1].
Qed.

(** ** Further evaluations on the concrete runtime *)

(** Two stored rows give the header line and two lines. *)
Example written_rows :
  let run := TrainerMetrics.write_training_metrics (rt := Demo.runtime)
               (DemoPolicy.metrics_rows, Demo.world0) in
  run.1 = Ok tt
  ∧ fs run.2.2 !! "run.csv"
    = Some (HEADER_LINE
              +:+ "Brain,1.000,4.000,1.000,10,1.500" +:+ CR +:+ NL
              +:+ "Brain,0.500,9.250,3.000,20,-2.000" +:+ CR +:+ NL).
Proof. vm_compute. repeat split. Qed.

Lemma X1_write_training_metrics_content_witness :
  (TrainerMetrics.path DemoPolicy.metrics_rows ∉ unwritable Demo.world0)
  ∧ ∃ w',
      TrainerMetrics.write_training_metrics (rt := Demo.runtime)
        (DemoPolicy.metrics_rows, Demo.world0)
      = (Ok tt, (DemoPolicy.metrics_rows, w'))
      ∧ fs w' !! TrainerMetrics.path DemoPolicy.metrics_rows
        = Some (csv.writerow (rt := Demo.runtime)
                  (VStr <$> TrainerMetrics.FIELD_NAMES DemoPolicy.metrics_rows)
                  +:+ String.concat ""
                        (csv.writerow (rt := Demo.runtime)
                           <$> TrainerMetrics.rows DemoPolicy.metrics_rows))
      ∧ (∀ p, p ≠ TrainerMetrics.path DemoPolicy.metrics_rows →
              fs w' !! p = fs Demo.world0 !! p)
      ∧ clock w' = clock Demo.world0 ∧ ticks w' = ticks Demo.world0
      ∧ log w' = log Demo.world0
      ∧ written w' = written Demo.world0 ∧ flushes w' = flushes Demo.world0.
Proof.
  split; [apply not_elem_of_empty|].
  apply (X1_write_training_metrics_content (rt := Demo.runtime)).
  apply not_elem_of_empty.
Defined.

Lemma X4_collection_timed_from_first_start_witness :
  TrainerMetrics.time_start_experience_collection Demo.metrics0 = None
  ∧ (call_times 3 TrainerMetrics.start_experience_collection_timer ;;
     TrainerMetrics.end_experience_collection_timer) (Demo.metrics0, Demo.world0)
    = (Ok tt,
       (TrainerMetrics.set_delta_last_experience_collection
          (Some (float_sub (clock Demo.world0 1) (clock Demo.world0 0))) Demo.metrics0,
        (time (time Demo.world0).2).2)).
Proof.
  split; [reflexivity|].
  apply (X4_collection_timed_from_first_start 2 Demo.metrics0 Demo.world0).
  reflexivity.
Defined.

Lemma X7_check_param_keys_first_missing_witness :
  Trainer.param_keys (Demo.trainer 1000 true ∅) = ["batch_size"] ++ "beta" :: []
  ∧ (∀ k', k' ∈ ["batch_size"] →
           is_Some (Trainer.trainer_parameters (Demo.trainer 1000 true ∅) !! k'))
  ∧ Trainer.trainer_parameters (Demo.trainer 1000 true ∅) !! "beta" = None
  ∧ Trainer.check_param_keys (cls := Demo.Concrete 0 0)
      (Demo.trainer 1000 true ∅, Demo.world0)
    = (Raise (UnityTrainerException
                ("The hyper-parameter " +:+ "beta" +:+ " could not be found for the "
                   +:+ "<class 'mlagents.trainers.ppo.trainer.PPOTrainer'>"
                   +:+ " trainer of brain " +:+ "Brain" +:+ ".")),
       (Demo.trainer 1000 true ∅, Demo.world0)).
Proof.
  assert (∀ k', k' ∈ ["batch_size"] →
                is_Some (Trainer.trainer_parameters (Demo.trainer 1000 true ∅) !! k'))
    as Hbefore.
  { intros k' Hk'. apply list_elem_of_In in Hk'. simpl in Hk'.
    destruct Hk' as [<-|[]]. vm_compute. eauto. }
  split; [reflexivity|]. split; [exact Hbefore|]. split; [reflexivity|].
  exact (X7_check_param_keys_first_missing (cls := Demo.Concrete 0 0)
           ["batch_size"] [] "beta" (Demo.trainer 1000 true ∅) Demo.world0
           eq_refl Hbefore eq_refl).
Defined.

(** A trainer whose recorder holds two rows writes the header line
    and two lines. *)
Example trainer_written_rows :
  let o := Trainer.set_trainer_metrics DemoPolicy.metrics_rows DemoPolicy.trainer_no_freq in
  let run := Trainer.write_training_metrics (rt := Demo.runtime) (o, Demo.world0) in
  run.1 = Ok tt
  ∧ run.2.1 = o
  ∧ fs run.2.2 !! "run.csv"
    = Some (HEADER_LINE
              +:+ "Brain,1.000,4.000,1.000,10,1.500" +:+ CR +:+ NL
              +:+ "Brain,0.500,9.250,3.000,20,-2.000" +:+ CR +:+ NL).
Proof. vm_compute. repeat split. Qed.

Lemma X9_write_summary_between_multiples_witness :
  Trainer.trainer_parameters (Demo.trainer 1000 true Demo.stats_full)
    !! "summary_freq" = Some (VInt 1000)
  ∧ 1000 ≠ 0 ∧ 1500 mod 1000 ≠ 0
  ∧ Trainer.write_summary (rt := Demo.runtime) (cls := Trainer.Base)
      1500 (Demo.F 25 (-1)) 0 (Demo.trainer 1000 true Demo.stats_full, Demo.world_full)
    = (Ok tt, (Demo.trainer 1000 true Demo.stats_full, Demo.world_full)).
Proof.
  split; [reflexivity|]. split; [discriminate|]. split; [discriminate|].
  apply (X9_write_summary_between_multiples (rt := Demo.runtime) (cls := Trainer.Base)
           _ _ _ 1500 0 1000); [reflexivity|discriminate|discriminate].
Defined.

Lemma X10_write_summary_bad_frequency_witness :
  Trainer.trainer_parameters DemoPolicy.trainer_no_freq !! "summary_freq" = None
  ∧ Trainer.write_summary (rt := Demo.runtime) (cls := Demo.Concrete 0 0)
      0 (Demo.F 25 (-1)) 0 (DemoPolicy.trainer_no_freq, Demo.world0)
    = (Raise (KeyError "summary_freq"), (DemoPolicy.trainer_no_freq, Demo.world0))
  ∧ Trainer.trainer_parameters DemoPolicy.trainer_str_freq !! "summary_freq"
    = Some (VStr "often")
  ∧ (VStr "often" = VNone ∨ ∃ s, VStr "often" = VStr s)
  ∧ ∃ msg,
      Trainer.write_summary (rt := Demo.runtime) (cls := Demo.Concrete 0 0)
        0 (Demo.F 25 (-1)) 0 (DemoPolicy.trainer_str_freq, Demo.world0)
      = (Raise (TypeError msg), (DemoPolicy.trainer_str_freq, Demo.world0)).
Proof.
  split; [reflexivity|]. split.
  - apply (proj1 (X10_write_summary_bad_frequency (rt := Demo.runtime)
                    (cls := Demo.Concrete 0 0) DemoPolicy.trainer_no_freq Demo.world0
                    (Demo.F 25 (-1)) 0 0)).
    reflexivity.
  - split; [reflexivity|]. split; [right; by eexists|].
    apply (proj2 (X10_write_summary_bad_frequency (rt := Demo.runtime)
                    (cls := Demo.Concrete 0 0) DemoPolicy.trainer_str_freq Demo.world0
                    (Demo.F 25 (-1)) 0 0) (VStr "often")); [reflexivity|].
    right. by eexists.
Defined.

Lemma demo_heap_wf : heap_wf Demo.world_full.
Proof. apply (bool_decide_unpack _). vm_compute. exact I. Defined.

Lemma demo_stats_bound :
  stats_bound (Demo.trainer 1000 true Demo.stats_full) Demo.world_full.
Proof. apply (bool_decide_unpack _). vm_compute. exact I. Defined.

Lemma demo_overrides : overrides_steps (cls := Demo.Concrete 2000 50000) 2000 50000.
Proof. split; intros s; reflexivity. Defined.

Lemma demo_reward_entry :
  is_Some (Trainer.stats (Demo.trainer 1000 true Demo.stats_full)
             !! Trainer.CUMULATIVE_REWARD).
Proof. exists 1%positive. reflexivity. Defined.

Lemma X11_write_summary_effects_witness :
  (Trainer.trainer_parameters (Demo.trainer 1000 true Demo.stats_full)
     !! "summary_freq" = Some (VInt 1000)
   ∧ 1000 ≠ 0 ∧ 2000 ≠ 0 ∧ 2000 mod 1000 = 0
   ∧ overrides_steps (cls := Demo.Concrete 2000 50000) 2000 50000
   ∧ is_Some (Trainer.stats (Demo.trainer 1000 true Demo.stats_full)
                !! Trainer.CUMULATIVE_REWARD)
   ∧ heap_wf Demo.world_full
   ∧ stats_bound (Demo.trainer 1000 true Demo.stats_full) Demo.world_full)
  ∧ ∃ st' w' means,
      Trainer.write_summary (rt := Demo.runtime) (cls := Demo.Concrete 2000 50000)
        2000 (Demo.F 25 (-1)) 0 (Demo.trainer 1000 true Demo.stats_full, Demo.world_full)
      = (Ok tt, (Trainer.set_stats st' (Demo.trainer 1000 true Demo.stats_full), w'))
      ∧ means ≡ₚ summary_values (rt := Demo.runtime)
                   (Demo.trainer 1000 true Demo.stats_full) Demo.world_full
      ∧ written w'
        = written Demo.world_full
            ++ [(Scalars (means ++ [("Environment/Lesson", VInt 0)]), 2000)]
      ∧ flushes w' = S (flushes Demo.world_full)
      ∧ length (log w') = S (length (log Demo.world_full))
      ∧ clock w' = clock Demo.world_full ∧ ticks w' = ticks Demo.world_full
      ∧ fs w' = fs Demo.world_full ∧ unwritable w' = unwritable Demo.world_full.
Proof.
  split.
  { split; [reflexivity|]. split; [discriminate|]. split; [discriminate|].
    split; [reflexivity|]. split; [exact demo_overrides|].
    split; [exact demo_reward_entry|]. split; [exact demo_heap_wf|].
    exact demo_stats_bound. }
  apply (X11_write_summary_effects (rt := Demo.runtime) (cls := Demo.Concrete 2000 50000)
           _ _ _ 2000 0 1000 2000 50000);
    [reflexivity|discriminate|discriminate|reflexivity|exact demo_overrides
    |exact demo_reward_entry|exact demo_heap_wf|exact demo_stats_bound].
Defined.

(** The values of that summary: one for each of the two keys with
    samples, none for the key without. *)
Example summary_values_full :
  summary_values (rt := Demo.runtime)
    (Demo.trainer 1000 true Demo.stats_full) Demo.world_full
  = [(Trainer.CUMULATIVE_REWARD, VFloat (Demo.F 2 0));
     ("Losses/Value Loss", VFloat (Demo.F 1 (-1)))].
Proof. vm_compute. reflexivity. Qed.

Lemma X12_write_summary_keeps_witness :
  (Trainer.trainer_parameters (Demo.trainer 1000 true Demo.stats_full)
     !! "summary_freq" = Some (VInt 1000)
   ∧ 1000 ≠ 0 ∧ 2000 ≠ 0 ∧ 2000 mod 1000 = 0
   ∧ overrides_steps (cls := Demo.Concrete 2000 50000) 2000 50000
   ∧ is_Some (Trainer.stats (Demo.trainer 1000 true Demo.stats_full)
                !! Trainer.CUMULATIVE_REWARD)
   ∧ heap_wf Demo.world_full
   ∧ stats_bound (Demo.trainer 1000 true Demo.stats_full) Demo.world_full)
  ∧ ∃ o' w',
      Trainer.write_summary (rt := Demo.runtime) (cls := Demo.Concrete 2000 50000)
        2000 (Demo.F 25 (-1)) 0 (Demo.trainer 1000 true Demo.stats_full, Demo.world_full)
      = (Ok tt, (o', w'))
      ∧ dom (Trainer.stats o')
        = dom (Trainer.stats (Demo.trainer 1000 true Demo.stats_full))
      ∧ (∀ key ℓ, Trainer.stats o' !! key = Some ℓ → lists w' !! ℓ = Some [])
      ∧ (∀ ℓ samples, lists Demo.world_full !! ℓ = Some samples →
                      lists w' !! ℓ = Some samples)
      ∧ heap_wf w' ∧ stats_bound o' w'.
Proof.
  split.
  { split; [reflexivity|]. split; [discriminate|]. split; [discriminate|].
    split; [reflexivity|]. split; [exact demo_overrides|].
    split; [exact demo_reward_entry|]. split; [exact demo_heap_wf|].
    exact demo_stats_bound. }
  apply (X12_write_summary_keeps (rt := Demo.runtime) (cls := Demo.Concrete 2000 50000)
           _ _ _ 2000 0 1000 2000 50000);
    [reflexivity|discriminate|discriminate|reflexivity|exact demo_overrides
    |exact demo_reward_entry|exact demo_heap_wf|exact demo_stats_bound].
Defined.

Lemma X13_write_summary_twice_witness :
  (Trainer.trainer_parameters (Demo.trainer 1000 true Demo.stats_full)
     !! "summary_freq" = Some (VInt 1000)
   ∧ 1000 ≠ 0 ∧ 2000 ≠ 0 ∧ 2000 mod 1000 = 0 ∧ 3000 ≠ 0 ∧ 3000 mod 1000 = 0
   ∧ overrides_steps (cls := Demo.Concrete 2000 50000) 2000 50000
   ∧ is_Some (Trainer.stats (Demo.trainer 1000 true Demo.stats_full)
                !! Trainer.CUMULATIVE_REWARD)
   ∧ heap_wf Demo.world_full
   ∧ stats_bound (Demo.trainer 1000 true Demo.stats_full) Demo.world_full)
  ∧ ∃ o1 w1 o2 w2,
      Trainer.write_summary (rt := Demo.runtime) (cls := Demo.Concrete 2000 50000)
        2000 (Demo.F 25 (-1)) 0 (Demo.trainer 1000 true Demo.stats_full, Demo.world_full)
      = (Ok tt, (o1, w1))
      ∧ Trainer.write_summary (rt := Demo.runtime) (cls := Demo.Concrete 2000 50000)
          3000 (Demo.F 30 0) 1 (o1, w1)
        = (Ok tt, (o2, w2))
      ∧ written w2 = written w1 ++ [(Scalars [("Environment/Lesson", VInt 1)], 2000)]
      ∧ log w2
        = log w1
            ++ [(INFO, Trainer.no_episode_line (rt := Demo.runtime)
                         (Trainer.run_id (Demo.trainer 1000 true Demo.stats_full))
                         (Trainer.brain_name (Demo.trainer 1000 true Demo.stats_full))
                         2000
                         (status_text (Demo.trainer 1000 true Demo.stats_full)
                            2000 50000))].
Proof.
  split.
  { split; [reflexivity|]. split; [discriminate|]. split; [discriminate|].
    split; [reflexivity|]. split; [discriminate|]. split; [reflexivity|].
    split; [exact demo_overrides|].
    split; [exact demo_reward_entry|]. split; [exact demo_heap_wf|].
    exact demo_stats_bound. }
  apply (X13_write_summary_twice (rt := Demo.runtime) (cls := Demo.Concrete 2000 50000)
           _ _ _ _ 2000 3000 0 1 1000 2000 50000);
    [reflexivity|discriminate|discriminate|reflexivity|discriminate|reflexivity
    |exact demo_overrides|exact demo_reward_entry|exact demo_heap_wf
    |exact demo_stats_bound].
Defined.

Lemma X14_write_tensorboard_text_written_witness :
  session_run_text (TensorFlow := Demo.tf_ok) "Hyperparameters"
    ((λ item : PyVal * PyVal,
        [py_str (rt := Demo.runtime) item.1; py_str (rt := Demo.runtime) item.2])
       <$> [(VStr "batch_size", VInt 1024)]) Demo.world0
  = (Ok "Hyperparametersbatch_size,1024", Demo.world0)
  ∧ overrides_steps (cls := Demo.Concrete 2000 50000) 2000 50000
  ∧ Trainer.write_tensorboard_text (rt := Demo.runtime) (tf := Demo.tf_ok)
      (cls := Demo.Concrete 2000 50000) "Hyperparameters"
      [(VStr "batch_size", VInt 1024)] (Demo.trainer 1000 true ∅, Demo.world0)
    = (Ok tt,
       (Demo.trainer 1000 true ∅,
        (add_summary (Serialized "Hyperparametersbatch_size,1024") 2000 Demo.world0).2)).
Proof.
  assert (session_run_text (TensorFlow := Demo.tf_ok) "Hyperparameters"
            ((λ item : PyVal * PyVal,
                [py_str (rt := Demo.runtime) item.1; py_str (rt := Demo.runtime) item.2])
               <$> [(VStr "batch_size", VInt 1024)]) Demo.world0
          = (Ok "Hyperparametersbatch_size,1024", Demo.world0)) as Hsession
    by reflexivity.
  split; [exact Hsession|]. split; [exact demo_overrides|].
  exact (X14_write_tensorboard_text_written (rt := Demo.runtime) (tf := Demo.tf_ok)
           (cls := Demo.Concrete 2000 50000) _ _ _ _ _ _ 2000 50000
           Hsession demo_overrides).
Defined.

Lemma X15_write_summary_base_class_raises_witness :
  Trainer.trainer_parameters (Demo.trainer 1000 false Demo.stats_full)
    !! "summary_freq" = Some (VInt 1000)
  ∧ 1000 ≠ 0 ∧ 2000 ≠ 0 ∧ 2000 mod 1000 = 0
  ∧ Trainer.write_summary (rt := Demo.runtime) (cls := Trainer.Base)
      2000 (Demo.F 25 (-1)) 0 (Demo.trainer 1000 false Demo.stats_full, Demo.world_full)
    = (Raise
         match Trainer.is_training (Demo.trainer 1000 false Demo.stats_full),
               Trainer.stats (Demo.trainer 1000 false Demo.stats_full)
                 !! Trainer.CUMULATIVE_REWARD with
         | false, None => KeyError Trainer.CUMULATIVE_REWARD
         | _, _ => UnityTrainerException "The get_step property was not implemented."
         end,
       (Demo.trainer 1000 false Demo.stats_full, Demo.world_full)).
Proof.
  split; [reflexivity|]. split; [discriminate|]. split; [discriminate|].
  split; [reflexivity|].
  apply (X15_write_summary_base_class_raises (rt := Demo.runtime)
           _ _ _ 2000 0 1000); [reflexivity|discriminate|discriminate|reflexivity].
Defined.

Lemma X18_save_and_export_model_witness :
  overrides_steps (cls := Demo.Concrete 2000 50000) 2000 50000
  ∧ TrainerPolicy.save_model (cls := Demo.Concrete 2000 50000)
      (pol := {| TrainerPolicy.self_policy := Some DemoPolicy.logging |})
      (Demo.trainer 1000 true ∅, Demo.world0)
    = (match (policy_save_model DemoPolicy.logging 2000 Demo.world0).1 with
       | Ok _ => Ok tt
       | Raise e => Raise e
       end,
       (Demo.trainer 1000 true ∅,
        (policy_save_model DemoPolicy.logging 2000 Demo.world0).2)).
Proof.
  split; [exact demo_overrides|].
  exact (proj1 (proj2 (X18_save_and_export_model (cls := Demo.Concrete 2000 50000)
                         DemoPolicy.logging (Demo.trainer 1000 true ∅) Demo.world0
                         2000 50000)) demo_overrides).
Defined.

(** The policy is asked once per [get_action], and what it is asked
    with the step by [save_model]. *)
Example policy_calls :
  let run :=
    (ignore (TrainerPolicy.get_action (pol := DemoPolicy.Bound) VNone) ;;
     ignore (TrainerPolicy.get_action (pol := DemoPolicy.Bound) VNone) ;;
     TrainerPolicy.save_model (cls := Demo.Concrete 2000 50000)
       (pol := DemoPolicy.Bound))
      (Demo.trainer 1000 true ∅, Demo.world0) in
  run.1 = Ok tt
  ∧ log run.2.2
    = [(INFO, "policy.get_action"); (INFO, "policy.get_action");
       (INFO, "policy.save_model 2000")]
  ∧ TrainerMetrics.time_start_experience_collection (Trainer.trainer_metrics run.2.1)
    = Some (Demo.F 0 0)
  ∧ ticks run.2.2 = 1%nat.
Proof. vm_compute. repeat split. Qed.
